(** * travelplanner-rag: retrieval orchestration, verified against its specification

    A shallow embedding of the retrieval core of the planner:

    - [src/retrievers/vector_store.py]  ([FAISSVectorStore])
    - [src/retrievers/knowledge_retrievers.py]  (the per-category retrievers
      and [MultiSourceRetriever])
    - [src/graph/nodes.py], [src/graph/workflow.py], [src/graph/state.py]
      (the nodes of the planning graph and the graph itself)

    Conventions.  Python exceptions are values of [exn]; a call that may raise
    returns a [Result].  Python [float]s (and numpy [float32]s) are idealised as
    exact rationals [Q]: no rounding, no overflow.  Python dictionaries with
    string keys are [gmap string _]. *)

From Stdlib Require Import ZArith QArith Qabs List Sorted Permutation Lia Lqa DecimalString.
From stdpp Require Import base option strings gmap.
Import ListNotations.

Local Open Scope string_scope.
Local Open Scope Z_scope.

(** ** Exceptions *)

Inductive exn : Type :=
| AssertionError
| ValueError
| IndexError
| KeyError
| ZeroDivisionError
| RuntimeError
| FileNotFoundError
| FileExistsError
| IsADirectoryError
| JSONDecodeError
| TypeError
| InvalidUpdateError
| GraphRecursionError.

Inductive Result (A : Type) : Type :=
| Ok (a : A)
| Raise (e : exn).
Arguments Ok {A} a.
Arguments Raise {A} e.

Definition bind {A B : Type} (r : Result A) (k : A -> Result B) : Result B :=
  match r with
  | Ok a => k a
  | Raise e => Raise e
  end.

Notation "'do' x <- r ; k" := (bind r (fun x => k))
  (at level 10, x name, r at level 100, k at level 200).

Definition returns {A : Type} (r : Result A) : Prop := exists a, r = Ok a.

(** ** Documents and their metadata *)

(** The metadata dictionary of a stored document.  Every key the retrievers
    read is optional (a Python [dict.get]); the value types are the ones
    [scripts/ingest_data.py] writes.  Keys no retriever reads are kept in
    [md_other]. *)
Record Metadata : Type := {
  md_admission_fee : option Q;
  md_category : option string;
  md_tags : option (list string);
  md_dietary_options : option (list string);
  md_price_range : option string;
  md_cuisine : option (list string);
  md_destination : option string;
  md_duration_days : option Z;
  md_other : list (string * string)
}.

(** [{}] *)
Definition empty_metadata : Metadata :=
  {| md_admission_fee := None; md_category := None; md_tags := None;
     md_dietary_options := None; md_price_range := None; md_cuisine := None;
     md_destination := None; md_duration_days := None; md_other := [] |}.

(** One entry of a result list: [{"text": .., "metadata": .., "score": ..}]. *)
Record Document : Type := {
  doc_text : string;
  doc_metadata : Metadata;
  doc_score : Q
}.

(** ** Python list indexing *)

(** [l[i]]: negative indices count from the end, out of range raises. *)
Definition py_index {A : Type} (l : list A) (i : Z) : Result A :=
  let n := Z.of_nat (length l) in
  let j := if i <? 0 then i + n else i in
  if (j <? 0) || (n <=? j) then Raise IndexError
  else match nth_error l (Z.to_nat j) with
       | Some a => Ok a
       | None => Raise IndexError
       end.

(** ** The flat L2 index *)

Module Faiss.

Definition Vec : Type := list Q.

(** Squared Euclidean distance. *)
Fixpoint l2sqr (x y : Vec) : Q :=
  match x, y with
  | a :: x', b :: y' => (a - b) * (a - b) + l2sqr x' y'
  | _, _ => 0
  end.

(** The largest finite [float32], the distance reported for a missing
    neighbour. *)
Definition FLT_MAX : Q := inject_Z 340282346638528859811704183484516925440.

(** [faiss.IndexFlatL2], an external library.  It is the brute-force index
    of section 4.1 of the specification: it stores the vectors in insertion
    order, and a search computes the squared Euclidean distance to every
    stored vector and reports the [k] nearest by ascending distance, ties in
    insertion order.  A search always reports exactly [k] (label, distance)
    pairs: when fewer than [k] vectors are stored, the library reports the
    missing neighbours with label [-1] (and distance [FLT_MAX]). *)
Record IndexFlatL2 : Type := {
  d : Z;
  xb : list Vec
}.

Definition new (dim : Z) : IndexFlatL2 := {| d := dim; xb := [] |}.

Definition ntotal (ix : IndexFlatL2) : Z := Z.of_nat (length (xb ix)).

(** [index.add(np.array(vs).astype('float32'))]: the array must be
    two-dimensional with rows of the index dimension. *)
Definition add (ix : IndexFlatL2) (vs : list Vec) : Result IndexFlatL2 :=
  match vs with
  | [] => Raise ValueError
  | v :: _ =>
      if negb (forallb (fun w => Z.of_nat (length w) =? Z.of_nat (length v)) vs)
      then Raise ValueError
      else if negb (Z.of_nat (length v) =? d ix) then Raise AssertionError
      else Ok {| d := d ix; xb := xb ix ++ vs |}
  end.

Definition Hit : Type := (Z * Q)%type.

(** Stable insertion sort by ascending distance. *)
Fixpoint insert_hit (h : Hit) (l : list Hit) : list Hit :=
  match l with
  | [] => [h]
  | h' :: t => if Qle_bool (snd h) (snd h') then h :: h' :: t
               else h' :: insert_hit h t
  end.

Definition sort_hits (l : list Hit) : list Hit := fold_right insert_hit [] l.

(** Labels [from, from+1, ..] paired with the distances to [q]. *)
Fixpoint scan (q : Vec) (from : Z) (vs : list Vec) : list Hit :=
  match vs with
  | [] => []
  | v :: vs' => (from, l2sqr q v) :: scan q (from + 1) vs'
  end.

Definition missing : Hit := (-1, FLT_MAX).

Definition knn (ix : IndexFlatL2) (q : Vec) (k : nat) : list Hit :=
  let found := firstn k (sort_hits (scan q 0 (xb ix))) in
  found ++ repeat missing (k - length found).

(** [index.search(np.array([q]).astype('float32'), k)], the row for the
    single query: the list of [k] (label, distance) pairs. *)
Definition search (ix : IndexFlatL2) (q : Vec) (k : Z) : Result (list Hit) :=
  if negb (Z.of_nat (length q) =? d ix) then Raise AssertionError
  else if negb (0 <? k) then Raise AssertionError
  else Ok (knn ix q (Z.to_nat k)).

End Faiss.

(** ** [FAISSVectorStore] *)

Record FAISSVectorStore : Type := {
  dimension : Z;
  index : Faiss.IndexFlatL2;
  texts : list string;
  metadatas : list Metadata
}.

(** [FAISSVectorStore(dimension)] *)
Definition new_store (dim : Z) : FAISSVectorStore :=
  {| dimension := dim; index := Faiss.new dim; texts := []; metadatas := [] |}.

(** [add_documents(texts, embeddings, metadatas=None)].  The lengths of the
    three arguments are not compared; an exception of [index.add] leaves the
    store as it was. *)
Definition add_documents (s : FAISSVectorStore) (ts : list string)
    (embeddings : list Faiss.Vec) (mds : option (list Metadata))
  : Result FAISSVectorStore :=
  let mds' := match mds with
              | None => map (fun _ => empty_metadata) ts
              | Some l => l
              end in
  do ix <- Faiss.add (index s) embeddings;
  Ok {| dimension := dimension s; index := ix;
        texts := texts s ++ ts; metadatas := metadatas s ++ mds' |}.

(** [1 / (1 + float(distance))] *)
Definition score_of (distance : Q) : Result Q :=
  if Qeq_bool (1 + distance) 0 then Raise ZeroDivisionError
  else Ok (1 / (1 + distance))%Q.

(** The loop over [zip(indices[0], distances[0])]. *)
Fixpoint collect (s : FAISSVectorStore) (hits : list Faiss.Hit)
  : Result (list Document) :=
  match hits with
  | [] => Ok []
  | (idx, distance) :: rest =>
      if idx <? Z.of_nat (length (texts s)) then
        do t <- py_index (texts s) idx;
        do m <- py_index (metadatas s) idx;
        do sc <- score_of distance;
        do tl <- collect s rest;
        Ok ({| doc_text := t; doc_metadata := m; doc_score := sc |} :: tl)
      else collect s rest
  end.

(** [similarity_search(query_embedding, k)] *)
Definition similarity_search (s : FAISSVectorStore) (query_embedding : Faiss.Vec)
    (k : Z) : Result (list Document) :=
  do hits <- Faiss.search (index s) query_embedding k;
  collect s hits.

(** ** Persistence *)

(** What a path names on disk.  A JSON file is represented by the value it
    decodes to; [Corrupt] is any file that does not decode. *)
Inductive Entry : Type :=
| Dir
| IndexBlob (ix : Faiss.IndexFlatL2)
| JsonTexts (l : list string)
| JsonMetadata (l : list Metadata)
| Corrupt.

Abbreviation FS := (gmap string Entry).

(** [path / name] *)
Definition joinpath (path name : string) : string := path +:+ "/" +:+ name.

(** [path.exists()] *)
Definition path_exists (fs : FS) (path : string) : bool :=
  match fs !! path with
  | Some _ => true
  | None => false
  end.

(** [path.mkdir(parents=True, exist_ok=True)] *)
Definition mkdir (fs : FS) (path : string) : FS * Result unit :=
  match fs !! path with
  | None => (<[path := Dir]> fs, Ok tt)
  | Some Dir => (fs, Ok tt)
  | Some _ => (fs, Raise FileExistsError)
  end.

(** Create or truncate the file and write [content]. *)
Definition write_file (fs : FS) (file : string) (content : Entry) : FS * Result unit :=
  match fs !! file with
  | Some Dir => (fs, Raise IsADirectoryError)
  | _ => (<[file := content]> fs, Ok tt)
  end.

(** [FAISSVectorStore.save(path)] *)
Definition save (s : FAISSVectorStore) (path : string) (fs : FS) : FS * Result unit :=
  match mkdir fs path with
  | (fs1, Raise e) => (fs1, Raise e)
  | (fs1, Ok _) =>
    match write_file fs1 (joinpath path "index.faiss") (IndexBlob (index s)) with
    | (fs2, Raise e) => (fs2, Raise e)
    | (fs2, Ok _) =>
      match write_file fs2 (joinpath path "texts.json") (JsonTexts (texts s)) with
      | (fs3, Raise e) => (fs3, Raise e)
      | (fs3, Ok _) =>
          write_file fs3 (joinpath path "metadata.json") (JsonMetadata (metadatas s))
      end
    end
  end.

(** [faiss.read_index(str(path / "index.faiss"))] *)
Definition read_index (fs : FS) (file : string) : Result Faiss.IndexFlatL2 :=
  match fs !! file with
  | Some (IndexBlob ix) => Ok ix
  | _ => Raise RuntimeError
  end.

(** [json.load(open(path / "texts.json"))] *)
Definition load_texts (fs : FS) (file : string) : Result (list string) :=
  match fs !! file with
  | None => Raise FileNotFoundError
  | Some (JsonTexts l) => Ok l
  | Some _ => Raise JSONDecodeError
  end.

(** [json.load(open(path / "metadata.json"))] *)
Definition load_metadata (fs : FS) (file : string) : Result (list Metadata) :=
  match fs !! file with
  | None => Raise FileNotFoundError
  | Some (JsonMetadata l) => Ok l
  | Some _ => Raise JSONDecodeError
  end.

(** [FAISSVectorStore.load(path)]: the three attributes are assigned one
    after the other, so an exception leaves the earlier assignments in
    place.  The result is the store after the call and how the call ended. *)
Definition load (s : FAISSVectorStore) (path : string) (fs : FS)
  : FAISSVectorStore * Result unit :=
  match read_index fs (joinpath path "index.faiss") with
  | Raise e => (s, Raise e)
  | Ok ix =>
    let s1 := {| dimension := dimension s; index := ix;
                 texts := texts s; metadatas := metadatas s |} in
    match load_texts fs (joinpath path "texts.json") with
    | Raise e => (s1, Raise e)
    | Ok ts =>
      let s2 := {| dimension := dimension s; index := ix;
                   texts := ts; metadatas := metadatas s |} in
      match load_metadata fs (joinpath path "metadata.json") with
      | Raise e => (s2, Raise e)
      | Ok ms =>
          ({| dimension := dimension s; index := ix;
              texts := ts; metadatas := ms |}, Ok tt)
      end
    end
  end.

(** One [add_documents] call of a caller that goes on after an exception. *)
Record AddCall : Type := {
  call_texts : list string;
  call_embeddings : list Faiss.Vec;
  call_metadatas : option (list Metadata)
}.

Definition apply_call (s : FAISSVectorStore) (c : AddCall) : FAISSVectorStore :=
  match add_documents s (call_texts c) (call_embeddings c) (call_metadatas c) with
  | Ok s' => s'
  | Raise _ => s
  end.

Definition run_calls (s : FAISSVectorStore) (cs : list AddCall) : FAISSVectorStore :=
  fold_left apply_call cs s.

(** ** Settings ([src/config/settings.py]) *)

Definition embedding_dimension : Z := 384.
Definition vector_store_path : string := "./data/vector_stores".
Definition max_retrieval_results : Z := 10.

(** ** Enumerations *)

Inductive KnowledgeSource : Type :=
| ATTRACTIONS | FOOD | TRANSPORT | TIPS | ITINERARIES.

Definition source_value (s : KnowledgeSource) : string :=
  match s with
  | ATTRACTIONS => "attractions"
  | FOOD => "food"
  | TRANSPORT => "transport"
  | TIPS => "tips"
  | ITINERARIES => "itineraries"
  end.

Definition source_eqb (a b : KnowledgeSource) : bool :=
  match a, b with
  | ATTRACTIONS, ATTRACTIONS | FOOD, FOOD | TRANSPORT, TRANSPORT
  | TIPS, TIPS | ITINERARIES, ITINERARIES => true
  | _, _ => false
  end.

(** Modelled from the spec: [src/models] is absent.  The budget tier is the
    enumeration BUDGET/MODERATE/LUXURY of section 3; the values are the ones
    [main.py] builds members from. *)
Inductive BudgetLevel : Type := BUDGET | MODERATE | LUXURY.

Definition budget_value (b : BudgetLevel) : string :=
  match b with
  | BUDGET => "budget"
  | MODERATE => "moderate"
  | LUXURY => "luxury"
  end.

Definition budget_eqb (a b : BudgetLevel) : bool :=
  match a, b with
  | BUDGET, BUDGET | MODERATE, MODERATE | LUXURY, LUXURY => true
  | _, _ => false
  end.

(** Modelled from the spec: [src/models] is absent.  A dietary restriction is
    a member of a string-valued enumeration; it is represented by its value,
    which is what it compares equal to in [opt in available_options]. *)
Definition DietaryRestriction : Type := string.
Definition VEGETARIAN : DietaryRestriction := "vegetarian".

(** [x in l] for a list of strings *)
Definition str_in (x : string) (l : list string) : bool :=
  existsb (String.eqb x) l.

(** ** Filter records *)

(** The [filters] dictionary handed to a retriever: every key is optional. *)
Record Filters : Type := {
  f_max_price : option Q;
  f_categories : option (list string);
  f_required_tags : option (list string);
  f_excluded_tags : option (list string);
  f_dietary_restrictions : option (list DietaryRestriction);
  f_budget_level : option BudgetLevel;
  f_cuisines : option (list string);
  f_destination : option string;
  f_duration_days : option Z
}.

(** [{}] *)
Definition no_filters : Filters :=
  {| f_max_price := None; f_categories := None; f_required_tags := None;
     f_excluded_tags := None; f_dietary_restrictions := None;
     f_budget_level := None; f_cuisines := None; f_destination := None;
     f_duration_days := None |}.

Definition is_some {A : Type} (o : option A) : bool :=
  match o with Some _ => true | None => false end.

(** Truth value of the dictionary: it has a key. *)
Definition filters_truthy (f : Filters) : bool :=
  is_some (f_max_price f) || is_some (f_categories f)
  || is_some (f_required_tags f) || is_some (f_excluded_tags f)
  || is_some (f_dietary_restrictions f) || is_some (f_budget_level f)
  || is_some (f_cuisines f) || is_some (f_destination f)
  || is_some (f_duration_days f).

(** ** The per-category filters ([knowledge_retrievers.py]) *)

(** Each [skip_*] is one guarded [continue] of a filter loop: [true] when the
    key is present and the candidate fails it. *)

Definition skip_max_price (f : Filters) (md : Metadata) : bool :=
  match f_max_price f with
  | Some bound => negb (Qle_bool (default 0%Q (md_admission_fee md)) bound)
  | None => false
  end.

Definition skip_categories (f : Filters) (md : Metadata) : bool :=
  match f_categories f with
  | Some cats => match md_category md with
                 | Some c => negb (str_in c cats)
                 | None => true
                 end
  | None => false
  end.

Definition skip_required_tags (f : Filters) (md : Metadata) : bool :=
  match f_required_tags f with
  | Some req => let tags := default [] (md_tags md) in
                negb (forallb (fun tag => str_in tag tags) req)
  | None => false
  end.

Definition skip_excluded_tags (f : Filters) (md : Metadata) : bool :=
  match f_excluded_tags f with
  | Some excl => let tags := default [] (md_tags md) in
                 existsb (fun tag => str_in tag tags) excl
  | None => false
  end.

(** The body of the loop of [AttractionRetriever._apply_filters]: is the
    candidate appended? *)
Definition attraction_keeps (f : Filters) (md : Metadata) : bool :=
  if skip_max_price f md then false
  else if skip_categories f md then false
  else if skip_required_tags f md then false
  else if skip_excluded_tags f md then false
  else true.

Definition euro : string := "€".
Definition euro2 : string := "€€".
Definition euro3 : string := "€€€".

Definition skip_dietary (f : Filters) (md : Metadata) : bool :=
  match f_dietary_restrictions f with
  | Some required =>
      let available_options := default [] (md_dietary_options md) in
      negb (existsb (fun opt => str_in opt available_options) required)
  | None => false
  end.

Definition skip_budget (f : Filters) (md : Metadata) : bool :=
  match f_budget_level f with
  | Some budget =>
      let price_range := default euro2 (md_price_range md) in
      if budget_eqb budget BUDGET && negb (str_in price_range [euro; euro2])
      then true
      else if budget_eqb budget LUXURY && String.eqb price_range euro
      then true
      else false
  | None => false
  end.

Definition skip_cuisines (f : Filters) (md : Metadata) : bool :=
  match f_cuisines f with
  | Some cs => let available_cuisines := default [] (md_cuisine md) in
               negb (existsb (fun c => str_in c available_cuisines) cs)
  | None => false
  end.

(** The body of the loop of [FoodRetriever._apply_filters]. *)
Definition food_keeps (f : Filters) (md : Metadata) : bool :=
  if skip_dietary f md then false
  else if skip_budget f md then false
  else if skip_cuisines f md then false
  else true.

Definition skip_destination (f : Filters) (md : Metadata) : bool :=
  match f_destination f with
  | Some dest => match md_destination md with
                 | Some x => negb (String.eqb x dest)
                 | None => true
                 end
  | None => false
  end.

Definition skip_duration (f : Filters) (md : Metadata) : bool :=
  match f_duration_days f with
  | Some target => 1 <? Z.abs (default 0 (md_duration_days md) - target)
  | None => false
  end.

(** The body of the loop of [ItineraryRetriever._apply_filters]. *)
Definition itinerary_keeps (f : Filters) (md : Metadata) : bool :=
  if skip_destination f md then false
  else if skip_duration f md then false
  else true.

(** ** Retrievers *)

Inductive RetrieverClass : Type :=
| BaseRetrieverC | AttractionRetrieverC | FoodRetrieverC
| TipsRetrieverC | ItineraryRetrieverC.

Record BaseRetriever : Type := {
  cls : RetrieverClass;
  source_type : KnowledgeSource;
  vector_store : FAISSVectorStore;
  store_path : string
}.

(** [BaseRetriever.__init__] with [vector_store=None] *)
Definition new_retriever (c : RetrieverClass) (src : KnowledgeSource) : BaseRetriever :=
  {| cls := c; source_type := src;
     vector_store := new_store embedding_dimension;
     store_path := joinpath vector_store_path (source_value src) |}.

Definition AttractionRetriever : BaseRetriever := new_retriever AttractionRetrieverC ATTRACTIONS.
Definition FoodRetriever : BaseRetriever := new_retriever FoodRetrieverC FOOD.
Definition TipsRetriever : BaseRetriever := new_retriever TipsRetrieverC TIPS.
Definition ItineraryRetriever : BaseRetriever := new_retriever ItineraryRetrieverC ITINERARIES.

(** [_apply_filters], as overridden by the class of the retriever. *)
Definition _apply_filters (c : RetrieverClass) (results : list Document) (f : Filters)
  : list Document :=
  match c with
  | AttractionRetrieverC => List.filter (fun r => attraction_keeps f (doc_metadata r)) results
  | FoodRetrieverC => List.filter (fun r => food_keeps f (doc_metadata r)) results
  | ItineraryRetrieverC => List.filter (fun r => itinerary_keeps f (doc_metadata r)) results
  | BaseRetrieverC | TipsRetrieverC => results
  end.

(** [BaseRetriever.load]: the retriever after the call and the value
    returned. *)
Definition retriever_load (r : BaseRetriever) (fs : FS) : BaseRetriever * bool :=
  if negb (path_exists fs (store_path r)) then (r, false)
  else
    let '(s', outcome) := load (vector_store r) (store_path r) fs in
    let r' := {| cls := cls r; source_type := source_type r;
                 vector_store := s'; store_path := store_path r |} in
    match outcome with
    | Ok _ => (r', true)
    | Raise _ => (r', false)
    end.

(** [BaseRetriever.save] *)
Definition retriever_save (r : BaseRetriever) (fs : FS) : FS * Result unit :=
  save (vector_store r) (store_path r) fs.

Record MultiSourceRetriever : Type := {
  attractions : BaseRetriever;
  food : BaseRetriever;
  tips : BaseRetriever;
  itineraries : BaseRetriever
}.

(** [MultiSourceRetriever()] *)
Definition new_multi : MultiSourceRetriever :=
  {| attractions := AttractionRetriever; food := FoodRetriever;
     tips := TipsRetriever; itineraries := ItineraryRetriever |}.

(** [_get_retriever(source)] *)
Definition _get_retriever (m : MultiSourceRetriever) (src : KnowledgeSource)
  : Result BaseRetriever :=
  match src with
  | ATTRACTIONS => Ok (attractions m)
  | FOOD => Ok (food m)
  | TIPS => Ok (tips m)
  | ITINERARIES => Ok (itineraries m)
  | TRANSPORT => Raise KeyError
  end.

(** [load_all()] *)
Definition load_all (m : MultiSourceRetriever) (fs : FS) : MultiSourceRetriever :=
  let a := fst (retriever_load (attractions m) fs) in
  let f := fst (retriever_load (food m) fs) in
  let t := fst (retriever_load (tips m) fs) in
  let i := fst (retriever_load (itineraries m) fs) in
  {| attractions := a; food := f; tips := t; itineraries := i |}.

(** ** Dates *)

(** A [datetime], to the second. *)
Record datetime : Type := {
  year : Z; month : Z; day : Z;
  hour : Z; minute : Z; second : Z
}.

Definition is_leap (y : Z) : bool :=
  (y mod 4 =? 0) && (negb (y mod 100 =? 0) || (y mod 400 =? 0)).

Definition days_before_year (y : Z) : Z :=
  let y1 := y - 1 in
  y1 * 365 + y1 / 4 - y1 / 100 + y1 / 400.

Definition days_before_month (y m : Z) : Z :=
  nth (Z.to_nat m) [0; 0; 31; 59; 90; 120; 151; 181; 212; 243; 273; 304; 334] 0
  + (if (2 <? m) && is_leap y then 1 else 0).

(** [date.toordinal()] *)
Definition toordinal (t : datetime) : Z :=
  days_before_year (year t) + days_before_month (year t) (month t) + day t.

Definition seconds_of (t : datetime) : Z :=
  toordinal t * 86400 + hour t * 3600 + minute t * 60 + second t.

(** [(a - b).days] *)
Definition delta_days (a b : datetime) : Z := (seconds_of a - seconds_of b) / 86400.

(** ** Preferences and planner state *)

(** Modelled from the spec: [src/models] is absent.  The fields are those of
    section 3, under the names the nodes read them by. *)
Record UserPreferences : Type := {
  destinations : list string;
  start_date : datetime;
  end_date : datetime;
  budget_level : BudgetLevel;
  dietary_restrictions : list DietaryRestriction;
  interests : list string;
  avoid : list string;
  pace : string;
  walking_preference : bool;
  group_type : option string
}.

Record ParsedIntent : Type := {
  pi_destinations : list string;
  pi_duration_days : Z;
  pi_budget_level : BudgetLevel;
  pi_dietary_needs : list DietaryRestriction;
  pi_interests : list string;
  pi_avoid_list : list string;
  pi_pace : string;
  pi_walkable : bool;
  pi_group_type : option string
}.

Record RetrievalStrategy : Type := {
  rs_sources : list KnowledgeSource;
  rs_filters : list (KnowledgeSource * Filters);
  rs_priority : list string
}.

Inductive Value : Type :=
| VPrefs (p : UserPreferences)
| VIntent (i : ParsedIntent)
| VStrategy (r : RetrievalStrategy)
| VDocs (l : list Document)
| VStr (s : string)
| VStrs (l : list string)
| VBool (b : bool)
| VInt (n : Z).

(** The planner state and the dictionary a node returns. *)
Abbreviation PlannerState := (gmap string Value).
Definition Update : Type := list (string * Value).

(** The keys [PlannerState] declares ([src/graph/state.py]). *)
Definition declared_fields : list string :=
  [ "user_preferences"; "parsed_intent"; "retrieval_strategy";
    "attractions_context"; "food_context"; "transport_context";
    "tips_context"; "itinerary_context"; "aggregated_context";
    "draft_itinerary"; "validation_results"; "constraints_met";
    "needs_replanning"; "replan_reason"; "final_itinerary";
    "errors"; "warnings"; "iteration_count"; "processing_time" ].

(** [dict.get(key)] on a dictionary keyed by knowledge source *)
Fixpoint source_lookup {A : Type} (l : list (KnowledgeSource * A)) (s : KnowledgeSource)
  : option A :=
  match l with
  | [] => None
  | (k, v) :: t => if source_eqb k s then Some v else source_lookup t s
  end.

(** ** String helpers *)

Definition nl : string := String (Ascii.ascii_of_nat 10) EmptyString.

(** [str(n)] *)
Definition str_of_int (n : Z) : string :=
  DecimalString.NilZero.string_of_int (Z.to_int n).

(** [sep.join(l)] *)
Definition join (sep : string) (l : list string) : string := String.concat sep l.

(** [s or dflt] for an optional string: [None] and the empty string are
    false. *)
Definition or_default (s : option string) (dflt : string) : string :=
  match s with
  | Some x => if String.eqb x "" then dflt else x
  | None => dflt
  end.

(** [needle in hay] *)
Fixpoint contains (needle hay : string) : bool :=
  String.prefix needle hay ||
  match hay with
  | EmptyString => false
  | String _ rest => contains needle rest
  end.

(** ** [IntentAnalyzerNode] ([src/graph/nodes.py]) *)

Definition duration_of (prefs : UserPreferences) : Z :=
  delta_days (end_date prefs) (start_date prefs) + 1.

Definition _determine_sources (prefs : UserPreferences) : list KnowledgeSource :=
  [ATTRACTIONS; FOOD; TIPS] ++ [ITINERARIES].

Definition nonempty {A : Type} (l : list A) : bool :=
  match l with [] => false | _ => true end.

Definition _build_filters (prefs : UserPreferences) : list (KnowledgeSource * Filters) :=
  let attraction_filters :=
    {| f_max_price := match budget_level prefs with
                      | BUDGET => Some 10%Q
                      | MODERATE => Some 25%Q
                      | LUXURY => None
                      end;
       f_categories := None;
       f_required_tags := if nonempty (interests prefs)
                          then Some (interests prefs) else None;
       f_excluded_tags := if nonempty (avoid prefs)
                          then Some (avoid prefs) else None;
       f_dietary_restrictions := None; f_budget_level := None;
       f_cuisines := None; f_destination := None; f_duration_days := None |} in
  let food_filters :=
    {| f_max_price := None; f_categories := None; f_required_tags := None;
       f_excluded_tags := None;
       f_dietary_restrictions := Some (dietary_restrictions prefs);
       f_budget_level := Some (budget_level prefs);
       f_cuisines := None; f_destination := None; f_duration_days := None |} in
  let itinerary_filters :=
    {| f_max_price := None; f_categories := None; f_required_tags := None;
       f_excluded_tags := None; f_dietary_restrictions := None;
       f_budget_level := None; f_cuisines := None; f_destination := None;
       f_duration_days := Some (duration_of prefs) |} in
  [ (ATTRACTIONS, attraction_filters); (FOOD, food_filters);
    (ITINERARIES, itinerary_filters) ].

Definition _determine_priority (prefs : UserPreferences) : list string :=
  (if budget_eqb (budget_level prefs) BUDGET then ["cost"] else [])
  ++ (if walking_preference prefs then ["proximity"] else [])
  ++ (if str_in "food" (interests prefs) then ["culinary"] else []).

(** State entries are read at the type [PlannerState] declares for them; an
    entry of another type is a [TypeError]. *)

(** [state["user_preferences"]] *)
Definition get_prefs (state : PlannerState) : Result UserPreferences :=
  match state !! "user_preferences" with
  | Some (VPrefs p) => Ok p
  | Some _ => Raise TypeError
  | None => Raise KeyError
  end.

(** [state["retrieval_strategy"]] *)
Definition get_strategy (state : PlannerState) : Result RetrievalStrategy :=
  match state !! "retrieval_strategy" with
  | Some (VStrategy r) => Ok r
  | Some _ => Raise TypeError
  | None => Raise KeyError
  end.

(** [state.get(key, [])] for a list of retrieved documents *)
Definition get_docs (state : PlannerState) (key : string) : Result (list Document) :=
  match state !! key with
  | Some (VDocs l) => Ok l
  | Some _ => Raise TypeError
  | None => Ok []
  end.

Definition IntentAnalyzerNode (state : PlannerState) : Result Update :=
  do prefs <- get_prefs state;
  let parsed_intent :=
    {| pi_destinations := destinations prefs;
       pi_duration_days := duration_of prefs;
       pi_budget_level := budget_level prefs;
       pi_dietary_needs := dietary_restrictions prefs;
       pi_interests := interests prefs;
       pi_avoid_list := avoid prefs;
       pi_pace := pace prefs;
       pi_walkable := walking_preference prefs;
       pi_group_type := group_type prefs |} in
  let retrieval_strategy :=
    {| rs_sources := _determine_sources prefs;
       rs_filters := _build_filters prefs;
       rs_priority := _determine_priority prefs |} in
  Ok [ ("parsed_intent", VIntent parsed_intent);
       ("retrieval_strategy", VStrategy retrieval_strategy);
       ("errors", default (VStrs []) (state !! "errors"));
       ("warnings", default (VStrs []) (state !! "warnings")) ].

(** ** Retrieval, the retrieval nodes, the aggregator and the graph *)

Section Workflow.

(** The embedding model ([EmbeddingModel.embed_text]), Python's [:.2f]
    formatting of a score and [json.dumps] of a metadata dictionary are
    external to the retrieval core. *)
Variable embed_text : string -> Faiss.Vec.
Variable format_score : Q -> string.
Variable json_dumps : Metadata -> string.

(** [BaseRetriever.retrieve(query, k, filters)].  The slice [results[:k]]
    is only reached with [k > 0]: the search raises otherwise. *)
Definition retrieve (r : BaseRetriever) (query : string) (k : Z)
    (filters : option Filters) : Result (list Document) :=
  let query_embedding := embed_text query in
  do results <- similarity_search (vector_store r) query_embedding (k * 2);
  let results' :=
    match filters with
    | Some f => if filters_truthy f then _apply_filters (cls r) results f
                else results
    | None => results
    end in
  Ok (firstn (Z.to_nat k) results').

(** *** [ParallelRetrieverNode] *)

Record ParallelRetrieverNode : Type := {
  source : KnowledgeSource;
  retriever : MultiSourceRetriever
}.

Definition new_node (src : KnowledgeSource) : ParallelRetrieverNode :=
  {| source := src; retriever := new_multi |}.

Definition _build_query (prefs : UserPreferences) (src : KnowledgeSource) : string :=
  let destination := join ", " (destinations prefs) in
  match src with
  | ATTRACTIONS =>
      let interests := if nonempty (interests prefs)
                       then join ", " (interests prefs)
                       else "popular attractions" in
      destination +:+ " " +:+ interests +:+ " places to visit"
  | FOOD =>
      let dietary := join ", " (dietary_restrictions prefs) in
      let budget := budget_value (budget_level prefs) in
      destination +:+ " " +:+ budget +:+ " " +:+ dietary +:+ " restaurants"
  | TIPS =>
      destination +:+ " travel tips local advice best time to visit"
  | ITINERARIES =>
      let duration := duration_of prefs in
      destination +:+ " " +:+ str_of_int duration +:+ " day itinerary "
        +:+ budget_value (budget_level prefs)
  | TRANSPORT => destination
  end.

(** [f"{self.source.value}_context"] *)
Definition context_key (src : KnowledgeSource) : string :=
  source_value src +:+ "_context".

(** [ParallelRetrieverNode.__call__] *)
Definition retriever_node (n : ParallelRetrieverNode) (state : PlannerState)
  : Result Update :=
  do strategy <- get_strategy state;
  do prefs <- get_prefs state;
  let query := _build_query prefs (source n) in
  let filters := default no_filters (source_lookup (rs_filters strategy) (source n)) in
  do r <- _get_retriever (retriever n) (source n);
  do results <- retrieve r query max_retrieval_results (Some filters);
  Ok [ (context_key (source n), VDocs results) ].

(** *** [ContextAggregatorNode] *)

(** [enumerate(items, i)] followed by the formatting of each item *)
Fixpoint enumerate_from {A : Type} (i : Z) (items : list A) : list (Z * A) :=
  match items with
  | [] => []
  | x :: t => (i, x) :: enumerate_from (i + 1) t
  end.

Definition attraction_lines (e : Z * Document) : list string :=
  let '(i, item) := e in
  [ str_of_int i +:+ ". " +:+ doc_text item;
    "   Score: " +:+ format_score (doc_score item);
    "   Metadata: " +:+ json_dumps (doc_metadata item) +:+ nl ].

Definition food_lines (e : Z * Document) : list string :=
  let '(i, item) := e in
  [ str_of_int i +:+ ". " +:+ doc_text item;
    "   Score: " +:+ format_score (doc_score item) +:+ nl ].

Definition tip_lines (e : Z * Document) : list string :=
  let '(_, item) := e in
  [ "- " +:+ doc_text item +:+ nl ].

(** [s[:n]], the first [n] characters of [s].  A string holds the UTF-8
    encoding of the text: the bytes [10xxxxxx] continue the character begun
    before them and stay with it. *)
Definition is_continuation (c : Ascii.ascii) : bool :=
  Nat.leb 128 (Ascii.nat_of_ascii c) && Nat.ltb (Ascii.nat_of_ascii c) 192.

Fixpoint py_prefix (n : nat) (s : string) : string :=
  match s with
  | EmptyString => EmptyString
  | String c rest =>
      if is_continuation c then String c (py_prefix n rest)
      else match n with
           | O => EmptyString
           | S n' => String c (py_prefix n' rest)
           end
  end.

Definition itinerary_lines (e : Z * Document) : list string :=
  let '(i, item) := e in
  [ str_of_int i +:+ ". " +:+ py_prefix 200 (doc_text item) +:+ "..." +:+ nl ].

Definition _build_context_string (attractions food tips itineraries : list Document)
    (preferences : UserPreferences) : string :=
  let duration := duration_of preferences in
  let sections :=
   ([ "## Trip Planning Context" +:+ nl;
      "Destinations: " +:+ join ", " (destinations preferences);
      "Duration: " +:+ str_of_int duration +:+ " days";
      "Budget: " +:+ budget_value (budget_level preferences);
      "Group: " +:+ or_default (group_type preferences) "N/A" +:+ nl ]
    ++ (if nonempty attractions
        then "## Available Attractions"
             :: concat (map attraction_lines (enumerate_from 1 (firstn 10 attractions)))
        else [])
    ++ (if nonempty food
        then "## Food Options"
             :: concat (map food_lines (enumerate_from 1 (firstn 10 food)))
        else [])
    ++ (if nonempty tips
        then "## Local Tips & Advice"
             :: concat (map tip_lines (enumerate_from 1 (firstn 5 tips)))
        else [])
    ++ (if nonempty itineraries
        then "## Similar Past Itineraries"
             :: concat (map itinerary_lines (enumerate_from 1 (firstn 3 itineraries)))
        else []))%list in
  join nl sections.

(** [ContextAggregatorNode.__call__] *)
Definition ContextAggregatorNode (state : PlannerState) : Result Update :=
  do attractions <- get_docs state "attractions_context";
  do food <- get_docs state "food_context";
  do tips <- get_docs state "tips_context";
  do itineraries <- get_docs state "itinerary_context";
  do prefs <- get_prefs state;
  Ok [ ("aggregated_context",
        VStr (_build_context_string attractions food tips itineraries prefs)) ].

(** *** The graph ([src/graph/workflow.py]) *)

(** Truth value of a state entry. *)
Definition truthy (v : Value) : bool :=
  match v with
  | VBool b => b
  | VInt n => negb (n =? 0)
  | VStr s => negb (String.eqb s "")
  | VStrs l => nonempty l
  | VDocs l => nonempty l
  | VPrefs _ | VIntent _ | VStrategy _ => true
  end.

(** [should_replan(state)] *)
Definition should_replan (state : PlannerState) : Result string :=
  if truthy (default (VBool false) (state !! "needs_replanning")) then
    match default (VInt 0) (state !! "iteration_count") with
    | VInt n => if n <? 3 then Ok "generate" else Ok "end"
    | _ => Raise TypeError
    end
  else Ok "end".

Definition END : string := "__end__".

Definition Node : Type := PlannerState -> Result Update.

(** What [StateGraph(PlannerState)] accumulates before it is compiled. *)
Record StateGraph : Type := {
  nodes : list (string * Node);
  entry_point : option string;
  edges : list (string * string)
}.

Definition new_graph : StateGraph :=
  {| nodes := []; entry_point := None; edges := [] |}.

Definition add_node (name : string) (f : Node) (g : StateGraph) : StateGraph :=
  {| nodes := (nodes g ++ [(name, f)])%list; entry_point := entry_point g;
     edges := edges g |}.

Definition set_entry_point (name : string) (g : StateGraph) : StateGraph :=
  {| nodes := nodes g; entry_point := Some name; edges := edges g |}.

Definition add_edge (a b : string) (g : StateGraph) : StateGraph :=
  {| nodes := nodes g; entry_point := entry_point g;
     edges := (edges g ++ [(a, b)])%list |}.

(** The module-level retrieval nodes. *)
Definition attraction_retriever_node : ParallelRetrieverNode := new_node ATTRACTIONS.
Definition food_retriever_node : ParallelRetrieverNode := new_node FOOD.
Definition tips_retriever_node : ParallelRetrieverNode := new_node TIPS.
Definition itinerary_retriever_node : ParallelRetrieverNode := new_node ITINERARIES.

(** The graph of [build_planning_graph], over the four retrieval nodes it
    is given. *)
Definition planning_graph_of (na nf nt ni : ParallelRetrieverNode) : StateGraph :=
  let workflow := new_graph in
  let workflow := add_node "analyze_intent" IntentAnalyzerNode workflow in
  let workflow := add_node "retrieve_attractions" (retriever_node na) workflow in
  let workflow := add_node "retrieve_food" (retriever_node nf) workflow in
  let workflow := add_node "retrieve_tips" (retriever_node nt) workflow in
  let workflow := add_node "retrieve_itineraries" (retriever_node ni) workflow in
  let workflow := add_node "aggregate_context" ContextAggregatorNode workflow in
  let workflow := set_entry_point "analyze_intent" workflow in
  let workflow := add_edge "analyze_intent" "retrieve_attractions" workflow in
  let workflow := add_edge "analyze_intent" "retrieve_food" workflow in
  let workflow := add_edge "analyze_intent" "retrieve_tips" workflow in
  let workflow := add_edge "analyze_intent" "retrieve_itineraries" workflow in
  let workflow := add_edge "retrieve_attractions" "aggregate_context" workflow in
  let workflow := add_edge "retrieve_food" "aggregate_context" workflow in
  let workflow := add_edge "retrieve_tips" "aggregate_context" workflow in
  let workflow := add_edge "retrieve_itineraries" "aggregate_context" workflow in
  let workflow := add_edge "aggregate_context" END workflow in
  workflow.

(** [build_planning_graph()] *)
Definition build_planning_graph : StateGraph :=
  planning_graph_of attraction_retriever_node food_retriever_node
    tips_retriever_node itinerary_retriever_node.

(** *** Running a graph *)

(** The graph executor ([langgraph]), an external library.  It is the
    executor of section 4.4 of the specification: starting from the entry
    node, the nodes of a step all read the state the step started with, their
    updates are merged into the state, and the step that follows runs the
    targets of the edges that leave them; the run ends when no node is left to
    run.  Only keys the state type declares are written, two nodes of one
    step may not write the same key, and a run is cut after [recursion_limit]
    steps. *)
Definition recursion_limit : nat := 25.

Fixpoint lookup_node (l : list (string * Node)) (name : string) : option Node :=
  match l with
  | [] => None
  | (n, f) :: t => if String.eqb n name then Some f else lookup_node t name
  end.

Fixpoint run_nodes (g : StateGraph) (state : PlannerState) (names : list string)
  : Result (list Update) :=
  match names with
  | [] => Ok []
  | n :: rest =>
      match lookup_node (nodes g) n with
      | None => Raise KeyError
      | Some f =>
          do u <- f state;
          do us <- run_nodes g state rest;
          Ok (u :: us)
      end
  end.

(** Merge the updates of one step; [written] are the keys already written
    in this step. *)
Fixpoint apply_writes (state : PlannerState) (written : list string)
    (writes : Update) : Result PlannerState :=
  match writes with
  | [] => Ok state
  | (k, v) :: rest =>
      if negb (str_in k declared_fields) then apply_writes state written rest
      else if str_in k written then Raise InvalidUpdateError
      else apply_writes (<[k := v]> state) (k :: written) rest
  end.

Fixpoint add_new (x : string) (l : list string) : list string :=
  match l with
  | [] => [x]
  | y :: t => if String.eqb x y then l else y :: add_new x t
  end.

(** The nodes the edges leaving [names] lead to, each once, [END] left out. *)
Definition successors (g : StateGraph) (names : list string) : list string :=
  fold_left
    (fun acc e =>
       if str_in (fst e) names && negb (String.eqb (snd e) END)
       then add_new (snd e) acc else acc)
    (edges g) [].

(** The steps run so far (the names of the nodes of each step), and how the
    run ended. *)
Fixpoint pregel (fuel : nat) (g : StateGraph) (state : PlannerState)
    (current : list string) (trace : list (list string))
  : list (list string) * Result PlannerState :=
  match current with
  | [] => (trace, Ok state)
  | _ =>
      match fuel with
      | O => (trace, Raise GraphRecursionError)
      | S fuel' =>
          let trace' := (trace ++ [current])%list in
          match run_nodes g state current with
          | Raise e => (trace', Raise e)
          | Ok updates =>
              match apply_writes state [] (concat updates) with
              | Raise e => (trace', Raise e)
              | Ok state' => pregel fuel' g state' (successors g current) trace'
              end
          end
      end
  end.

(** [graph.compile().invoke(input)] *)
Definition invoke (g : StateGraph) (input : Update)
  : list (list string) * Result PlannerState :=
  match entry_point g with
  | None => ([], Raise ValueError)
  | Some entry =>
      match apply_writes ∅ [] input with
      | Raise e => ([], Raise e)
      | Ok state => pregel recursion_limit g state [entry] []
      end
  end.

(** [planner_graph] *)
Definition planner_graph : StateGraph := build_planning_graph.

End Workflow.

(** ** Auxiliary notions used in the statements *)

(** The three parallel sequences have one length. *)
Definition aligned (s : FAISSVectorStore) : Prop :=
  length (texts s) = length (Faiss.xb (index s))
  /\ length (metadatas s) = length (Faiss.xb (index s)).

(** Number of stored documents. *)
Definition stored (s : FAISSVectorStore) : Z := Faiss.ntotal (index s).

(** The position [l[i]] reads in a list of length [n]. *)
Definition py_pos (n : nat) (i : Z) : nat :=
  Z.to_nat (if i <? 0 then i + Z.of_nat n else i).

(** The result entry built from one (label, distance) pair. *)
Definition hit_doc (s : FAISSVectorStore) (h : Faiss.Hit) : Document :=
  {| doc_text := nth (py_pos (length (texts s)) (fst h)) (texts s) "";
     doc_metadata := nth (py_pos (length (metadatas s)) (fst h)) (metadatas s)
                         empty_metadata;
     doc_score := (1 / (1 + snd h))%Q |}.

(** A pair a search of an index of [n] vectors can report. *)
Definition hit_ok (n : Z) (h : Faiss.Hit) : Prop :=
  -1 <= fst h < n /\ (0 <= snd h)%Q.

(** The order a search reports its pairs in: ascending distance, equal
    distances in insertion order. *)
Definition hit_before (a b : Faiss.Hit) : Prop :=
  (snd a < snd b)%Q \/ ((snd a == snd b)%Q /\ fst a < fst b).

(** The pair [h] names a stored vector and its squared distance to [q]. *)
Definition reported (ix : Faiss.IndexFlatL2) (q : Faiss.Vec) (h : Faiss.Hit) : Prop :=
  0 <= fst h /\
  exists v, nth_error (Faiss.xb ix) (Z.to_nat (fst h)) = Some v
            /\ snd h = Faiss.l2sqr q v.

(** Non-increasing score. *)
Definition score_ge (a b : Document) : Prop := (doc_score b <= doc_score a)%Q.


(** [metadata.get("tags", [])] *)
Definition tags_of (md : Metadata) : list string := default [] (md_tags md).

(** [metadata.get("dietary_options", [])] *)
Definition dietary_options_of (md : Metadata) : list string :=
  default [] (md_dietary_options md).

(** [metadata.get("price_range", "€€")] *)
Definition price_range_of (md : Metadata) : string :=
  default euro2 (md_price_range md).

(** [metadata.get("cuisine", [])] *)
Definition cuisine_of (md : Metadata) : list string := default [] (md_cuisine md).

(** The filter record without its [excluded_tags] key. *)
Definition without_excluded_tags (f : Filters) : Filters :=
  {| f_max_price := f_max_price f; f_categories := f_categories f;
     f_required_tags := f_required_tags f; f_excluded_tags := None;
     f_dietary_restrictions := f_dietary_restrictions f;
     f_budget_level := f_budget_level f; f_cuisines := f_cuisines f;
     f_destination := f_destination f; f_duration_days := f_duration_days f |}.

(** ** Example inputs *)

(** An embedding model that maps every text to the zero vector of the
    configured dimension. *)
Definition zero_embedding (text : string) : Faiss.Vec :=
  repeat 0%Q (Z.to_nat embedding_dimension).

(** A store of dimension 2 after one [add_documents] call with one text. *)
Definition one_doc_store : FAISSVectorStore :=
  run_calls (new_store 2)
    [ {| call_texts := ["Louvre"]; call_embeddings := [[1%Q; 0%Q]];
         call_metadatas := None |} ].

(** A store of dimension 2 holding two documents, added by two calls. *)
Definition two_doc_store : FAISSVectorStore :=
  run_calls (new_store 2)
    [ {| call_texts := ["Louvre"]; call_embeddings := [[0%Q; 0%Q]];
         call_metadatas := None |};
      {| call_texts := ["Orsay"]; call_embeddings := [[3%Q; 4%Q]];
         call_metadatas := None |} ].

(** The directory of the attractions index with [metadata.json] missing: the
    index blob and the texts of [one_doc_store] are there. *)
Definition half_written_fs : FS :=
  <[joinpath (store_path AttractionRetriever) "texts.json" := JsonTexts (texts one_doc_store)]>
  (<[joinpath (store_path AttractionRetriever) "index.faiss" := IndexBlob (index one_doc_store)]>
   (<[store_path AttractionRetriever := Dir]> ∅)).

Definition midnight (y m d : Z) : datetime :=
  {| year := y; month := m; day := d; hour := 0; minute := 0; second := 0 |}.

(** The preferences of the end-to-end scenario. *)
Definition scenario_prefs : UserPreferences :=
  {| destinations := ["Paris"];
     start_date := midnight 2024 6 15; end_date := midnight 2024 6 17;
     budget_level := BUDGET; dietary_restrictions := [VEGETARIAN];
     interests := ["art"; "food"]; avoid := [];
     pace := "moderate"; walking_preference := true; group_type := None |}.

(** The preferences the [plan] command of [main.py] builds: no dietary
    restriction. *)
Definition plan_prefs : UserPreferences :=
  {| destinations := ["Paris"];
     start_date := midnight 2024 6 15; end_date := midnight 2024 6 17;
     budget_level := MODERATE; dietary_restrictions := [];
     interests := ["culture"; "food"]; avoid := [];
     pace := "moderate"; walking_preference := true; group_type := None |}.

(** The initial state the callers hand to the graph. *)
Definition initial_state (prefs : UserPreferences) : Update :=
  [ ("user_preferences", VPrefs prefs); ("errors", VStrs []);
    ("warnings", VStrs []); ("iteration_count", VInt 0) ].

Definition metadata_with_tags (fee : Q) (tags : option (list string)) : Metadata :=
  {| md_admission_fee := Some fee; md_category := Some "museum"; md_tags := tags;
     md_dietary_options := None; md_price_range := None; md_cuisine := None;
     md_destination := None; md_duration_days := None; md_other := [] |}.

Definition food_metadata (options : list string) (price : string) : Metadata :=
  {| md_admission_fee := None; md_category := None; md_tags := None;
     md_dietary_options := Some options; md_price_range := Some price;
     md_cuisine := Some ["french"]; md_destination := None;
     md_duration_days := None; md_other := [] |}.

Definition doc (text : string) (md : Metadata) : Document :=
  {| doc_text := text; doc_metadata := md; doc_score := 1 |}.

(** An attraction tagged "art" only, one without a [tags] key, and the
    attractions filter record of [scenario_prefs] with an exclusion added. *)
Definition art_only : Document := doc "Louvre" (metadata_with_tags 0 (Some ["art"])).
Definition untagged : Document := doc "Pont Neuf" (metadata_with_tags 0 None).
Definition art_food_filters : Filters :=
  {| f_max_price := Some 10%Q; f_categories := None;
     f_required_tags := Some ["art"; "food"]; f_excluded_tags := Some ["crowds"];
     f_dietary_restrictions := None; f_budget_level := None; f_cuisines := None;
     f_destination := None; f_duration_days := None |}.
Definition crowds_filter : Filters :=
  {| f_max_price := Some 10%Q; f_categories := None;
     f_required_tags := None; f_excluded_tags := Some ["crowds"];
     f_dietary_restrictions := None; f_budget_level := None; f_cuisines := None;
     f_destination := None; f_duration_days := None |}.

(** A restaurant with vegetarian and vegan dishes in the dearest band, and a
    food filter record asking for vegetarian or halal on a budget. *)
Definition bistro : Document := doc "Le Potager" (food_metadata ["vegetarian"; "vegan"] euro3).
Definition veg_or_halal_only : Filters :=
  {| f_max_price := None; f_categories := None; f_required_tags := None;
     f_excluded_tags := None;
     f_dietary_restrictions := Some ["halal"; "vegetarian"];
     f_budget_level := None; f_cuisines := None; f_destination := None;
     f_duration_days := None |}.
Definition veg_or_halal_budget : Filters :=
  {| f_max_price := None; f_categories := None; f_required_tags := None;
     f_excluded_tags := None;
     f_dietary_restrictions := Some ["halal"; "vegetarian"];
     f_budget_level := Some BUDGET; f_cuisines := None; f_destination := None;
     f_duration_days := None |}.

(** A filter record with the [budget_level] key only, and a restaurant whose
    price range is none of the three bands of the ingestion schema. *)
Definition budget_only (b : BudgetLevel) : Filters :=
  {| f_max_price := None; f_categories := None; f_required_tags := None;
     f_excluded_tags := None; f_dietary_restrictions := None;
     f_budget_level := Some b; f_cuisines := None; f_destination := None;
     f_duration_days := None |}.
Definition euro4 : string := "€€€€".
Definition grand_table : Document := doc "La Grande Table" (food_metadata [] euro4).

(** A retriever whose store holds one document. *)
Definition stocked (c : RetrieverClass) (src : KnowledgeSource) (text : string)
    (md : Metadata) : BaseRetriever :=
  {| cls := c; source_type := src;
     vector_store :=
       run_calls (new_store embedding_dimension)
         [ {| call_texts := [text]; call_embeddings := [zero_embedding text];
              call_metadatas := Some [md] |} ];
     store_path := joinpath vector_store_path (source_value src) |}.

Definition stocked_food_retriever : BaseRetriever :=
  stocked FoodRetrieverC FOOD "Le Potager" (food_metadata ["vegetarian"; "vegan"] euro).

Definition itinerary_metadata (days : Z) : Metadata :=
  {| md_admission_fee := None; md_category := None; md_tags := None;
     md_dietary_options := None; md_price_range := None; md_cuisine := None;
     md_destination := Some "Paris"; md_duration_days := Some days; md_other := [] |}.

(** A coordinator with one document in each of its four stores. *)
Definition stocked_multi : MultiSourceRetriever :=
  {| attractions := stocked AttractionRetrieverC ATTRACTIONS "Louvre"
                      (metadata_with_tags 0 (Some ["art"; "food"]));
     food := stocked_food_retriever;
     tips := stocked TipsRetrieverC TIPS "Buy a carnet" empty_metadata;
     itineraries := stocked ItineraryRetrieverC ITINERARIES "Three days in Paris"
                      (itinerary_metadata 3) |}.

(** The steps of a complete run of the planning graph. *)
Definition retrieval_step : list string :=
  ["retrieve_attractions"; "retrieve_food"; "retrieve_tips"; "retrieve_itineraries"].

Definition full_trace : list (list string) :=
  [["analyze_intent"]; retrieval_step; ["aggregate_context"]].

(** A state in which replanning is asked for and no iteration has run. *)
Definition replanning_state : PlannerState :=
  <["needs_replanning" := VBool true]>
  (<["iteration_count" := VInt 0]>
   (<["user_preferences" := VPrefs scenario_prefs]> ∅)).

(** Stand-ins for the two formatting functions, for runs that format no
    document. *)
Definition blank_score (score : Q) : string := "".
Definition blank_json (md : Metadata) : string := "".

(** Observations on the outcome of a run. *)
Definition final_state (run : list (list string) * Result PlannerState) : PlannerState :=
  match snd run with
  | Ok state => state
  | Raise _ => ∅
  end.

Definition texts_at (state : PlannerState) (key : string) : option (list string) :=
  match state !! key with
  | Some (VDocs l) => Some (map doc_text l)
  | _ => None
  end.

Definition text_at (state : PlannerState) (key : string) : string :=
  match state !! key with
  | Some (VStr s) => s
  | _ => ""
  end.

(** The scenario run by the graph with retrieval nodes whose stores hold one
    document each. *)
Definition stocked_node (src : KnowledgeSource) : ParallelRetrieverNode :=
  {| source := src; retriever := stocked_multi |}.

Definition stocked_run : list (list string) * Result PlannerState :=
  invoke (planning_graph_of zero_embedding blank_score blank_json
            (stocked_node ATTRACTIONS) (stocked_node FOOD)
            (stocked_node TIPS) (stocked_node ITINERARIES))
         (initial_state scenario_prefs).

(** ** Further notions used in the statements *)

(** The directory of a persisted index and its three files. *)
Definition paths_of (path : string) : list string :=
  [ path; joinpath path "index.faiss"; joinpath path "texts.json";
    joinpath path "metadata.json" ].

(** [path] holds a persisted index: the directory entry and three files that
    decode to an index, a list of texts and a list of metadata records. *)
Definition persisted_at (fs : FS) (path : string) (ix : Faiss.IndexFlatL2)
    (ts : list string) (ms : list Metadata) : Prop :=
  is_Some (fs !! path)
  /\ fs !! joinpath path "index.faiss" = Some (IndexBlob ix)
  /\ fs !! joinpath path "texts.json" = Some (JsonTexts ts)
  /\ fs !! joinpath path "metadata.json" = Some (JsonMetadata ms).

(** The retriever [r] with another store. *)
Definition with_store (r : BaseRetriever) (s : FAISSVectorStore) : BaseRetriever :=
  {| cls := cls r; source_type := source_type r; vector_store := s;
     store_path := store_path r |}.

(** The test the loop of [_apply_filters] of a class applies to a candidate;
    the base class and the tips retriever keep everything. *)
Definition keeps (c : RetrieverClass) (f : Filters) (md : Metadata) : bool :=
  match c with
  | AttractionRetrieverC => attraction_keeps f md
  | FoodRetrieverC => food_keeps f md
  | ItineraryRetrieverC => itinerary_keeps f md
  | BaseRetrieverC | TipsRetrieverC => true
  end.

(** [metadata.get("admission_fee", 0)] and the like. *)
Definition admission_fee_of (md : Metadata) : Q := default 0%Q (md_admission_fee md).
Definition duration_days_of (md : Metadata) : Z := default 0 (md_duration_days md).

(** ** [MultiSourceRetriever.retrieve_all] *)

(** [d[k] = v] on a dictionary keyed by knowledge source: a key keeps its
    place. *)
Fixpoint source_update {A : Type} (d : list (KnowledgeSource * A))
    (k : KnowledgeSource) (v : A) : list (KnowledgeSource * A) :=
  match d with
  | [] => [(k, v)]
  | (k', v') :: t => if source_eqb k' k then (k', v) :: t
                     else (k', v') :: source_update t k v
  end.

(** [filters.get(source) if filters else None] *)
Definition filters_for (filters : option (list (KnowledgeSource * Filters)))
    (src : KnowledgeSource) : option Filters :=
  match filters with
  | Some (e :: d) => source_lookup (e :: d) src
  | _ => None
  end.

Section RetrieveAll.

Variable embed_text : string -> Faiss.Vec.

(** The loop of [retrieve_all], from the dictionary built so far. *)
Fixpoint retrieve_all_from (m : MultiSourceRetriever) (query : string) (k : Z)
    (filters : option (list (KnowledgeSource * Filters)))
    (sources : list KnowledgeSource)
    (results : list (KnowledgeSource * list Document))
  : Result (list (KnowledgeSource * list Document)) :=
  match sources with
  | [] => Ok results
  | source :: rest =>
      do retriever <- _get_retriever m source;
      let source_filters := filters_for filters source in
      do docs <- retrieve embed_text retriever query k source_filters;
      retrieve_all_from m query k filters rest (source_update results source docs)
  end.

(** [retrieve_all(query, sources, k, filters)] *)
Definition retrieve_all (m : MultiSourceRetriever) (query : string)
    (sources : list KnowledgeSource) (k : Z)
    (filters : option (list (KnowledgeSource * Filters)))
  : Result (list (KnowledgeSource * list Document)) :=
  retrieve_all_from m query k filters sources [].

End RetrieveAll.

(** A document with its text cut to the 200 characters the aggregator shows
    of an itinerary. *)
Definition clip (d : Document) : Document :=
  {| doc_text := py_prefix 200 (doc_text d);
     doc_metadata := doc_metadata d; doc_score := doc_score d |}.

(** The state after the writes [ws] of one step, when no two of them write
    the same key: the declared keys are set, the others are dropped. *)
Definition merge_all (state : PlannerState) (ws : Update) : PlannerState :=
  fold_left (fun st kv => if str_in (fst kv) declared_fields
                          then <[fst kv := snd kv]> st else st) ws state.

(** The state of the end-to-end scenario once the intent analysis has run. *)
Definition analysed_state : PlannerState :=
  let state := merge_all ∅ (initial_state scenario_prefs) in
  match IntentAnalyzerNode state with
  | Ok update => merge_all state update
  | Raise _ => state
  end.

(** What a retrieval node writes in a state, nothing when it raises. *)
Definition node_output (embed_text : string -> Faiss.Vec) (state : PlannerState)
    (n : ParallelRetrieverNode) : Update :=
  match retriever_node embed_text n state with
  | Ok u => u
  | Raise _ => []
  end.

(** * Properties *)

(** ** The flat index and [similarity_search] *)

Lemma Qsquare_nonneg (t : Q) : (0 <= t * t)%Q.
Proof. unfold Qle, Qmult; simpl. rewrite Z.mul_1_r. apply Z.square_nonneg. Qed.

Lemma l2sqr_nonneg (x y : Faiss.Vec) : (0 <= Faiss.l2sqr x y)%Q.
Proof.
  revert y. induction x as [|a x IH]; intros [|b y]; simpl; try apply Qle_refl.
  specialize (IH y). pose proof (Qsquare_nonneg (a - b)). lra.
Qed.

Lemma scan_length q from vs : length (Faiss.scan q from vs) = length vs.
Proof. revert from. induction vs as [|v vs IH]; intros from; simpl; auto. Qed.

Lemma scan_ok q from vs :
  Forall (fun h => from <= fst h < from + Z.of_nat (length vs) /\ (0 <= snd h)%Q)
         (Faiss.scan q from vs).
Proof.
  revert from. induction vs as [|v vs IH]; intros from; simpl; constructor.
  - simpl. split; [lia | apply l2sqr_nonneg].
  - eapply List.Forall_impl; [|apply (IH (from + 1))].
    simpl. intros h [Hr Hd]. split; [lia | exact Hd].
Qed.

Lemma insert_hit_perm h l : Permutation (Faiss.insert_hit h l) (h :: l).
Proof.
  induction l as [|h' t IH]; simpl; [reflexivity|].
  destruct (Qle_bool (snd h) (snd h')); [reflexivity|].
  rewrite IH. apply perm_swap.
Qed.

Lemma sort_hits_perm l : Permutation (Faiss.sort_hits l) l.
Proof.
  induction l as [|h t IH]; simpl; [reflexivity|].
  rewrite insert_hit_perm. now constructor.
Qed.

Lemma sort_hits_length l : length (Faiss.sort_hits l) = length l.
Proof. apply Permutation_length, sort_hits_perm. Qed.

Lemma knn_length ix q k : length (Faiss.knn ix q k) = k.
Proof.
  unfold Faiss.knn. rewrite length_app, repeat_length.
  pose proof (firstn_le_length k (Faiss.sort_hits (Faiss.scan q 0 (Faiss.xb ix)))).
  lia.
Qed.

Lemma FLT_MAX_nonneg : (0 <= Faiss.FLT_MAX)%Q.
Proof. unfold Faiss.FLT_MAX, Qle; simpl; lia. Qed.

Lemma knn_ok ix q k : Forall (hit_ok (Faiss.ntotal ix)) (Faiss.knn ix q k).
Proof.
  unfold Faiss.knn. apply List.Forall_app. split.
  - apply Forall_take.
    apply (Permutation_Forall (Permutation_sym (sort_hits_perm _))).
    eapply List.Forall_impl; [|apply (scan_ok q 0 (Faiss.xb ix))].
    intros h [Hr Hd]. unfold hit_ok, Faiss.ntotal. split; [lia | exact Hd].
  - apply List.Forall_forall. intros h Hin. apply repeat_spec in Hin. subst h.
    unfold hit_ok, Faiss.missing, Faiss.ntotal. simpl.
    split; [lia | apply FLT_MAX_nonneg].
Qed.

Lemma py_index_ok {A : Type} (l : list A) (i : Z) (dflt : A) :
  - Z.of_nat (length l) <= i < Z.of_nat (length l) ->
  py_index l i = Ok (nth (py_pos (length l) i) l dflt).
Proof.
  intros Hi. unfold py_index, py_pos.
  set (j := if i <? 0 then i + Z.of_nat (length l) else i).
  assert (Hj : 0 <= j < Z.of_nat (length l)).
  { subst j. destruct (Z.ltb_spec i 0); lia. }
  destruct (Z.ltb_spec j 0); [lia|].
  destruct (Z.leb_spec (Z.of_nat (length l)) j); [lia|]. simpl.
  rewrite (nth_error_nth' l dflt); [reflexivity | lia].
Qed.

Lemma py_index_empty {A : Type} (i : Z) : py_index (@nil A) i = Raise IndexError.
Proof.
  unfold py_index. cbn [length Z.of_nat].
  destruct (i <? 0) eqn:E; [rewrite Z.add_0_r, E; reflexivity|].
  rewrite E. destruct (Z.of_nat 0 <=? i); simpl; [reflexivity|].
  destruct (Z.to_nat i); reflexivity.
Qed.

Lemma score_of_ok (distance : Q) :
  (0 <= distance)%Q -> score_of distance = Ok (1 / (1 + distance))%Q.
Proof.
  intros H. unfold score_of.
  destruct (Qeq_bool (1 + distance) 0) eqn:E; [|reflexivity].
  apply Qeq_bool_eq in E. lra.
Qed.

(** On a store of [n >= 1] aligned documents the loop of [similarity_search]
    turns every reported pair into a result entry, the pairs with label [-1]
    included. *)
Lemma collect_ok (s : FAISSVectorStore) (n : nat) (hits : list Faiss.Hit) :
  (1 <= n)%nat -> length (texts s) = n -> length (metadatas s) = n ->
  Forall (hit_ok (Z.of_nat n)) hits ->
  collect s hits = Ok (map (hit_doc s) hits).
Proof.
  intros Hn Ht Hm. induction 1 as [|[idx dist] hits [Hr Hd] _ IH]; [reflexivity|].
  simpl in Hr, Hd. simpl. rewrite Ht.
  destruct (Z.ltb_spec idx (Z.of_nat n)); [|lia].
  rewrite (py_index_ok (texts s) idx ""), (py_index_ok (metadatas s) idx empty_metadata)
    by (rewrite ?Ht, ?Hm; lia).
  simpl. rewrite (score_of_ok dist Hd). simpl. rewrite IH. simpl.
  unfold hit_doc. simpl. rewrite Ht. reflexivity.
Qed.

(** What [similarity_search] returns on a store of at least one aligned
    document: one entry per pair the index reports, hence always [k] of
    them. *)
Lemma similarity_search_spec (s : FAISSVectorStore) (q : Faiss.Vec) (k : Z) :
  aligned s -> 1 <= stored s ->
  Z.of_nat (length q) = Faiss.d (index s) -> 0 < k ->
  similarity_search s q k
  = Ok (map (hit_doc s) (Faiss.knn (index s) q (Z.to_nat k))).
Proof.
  intros [Ht Hm] Hn Hq Hk. unfold similarity_search, Faiss.search.
  rewrite Hq, Z.eqb_refl. simpl.
  destruct (Z.ltb_spec 0 k); [|lia]. simpl.
  apply (collect_ok s (length (Faiss.xb (index s)))); auto.
  - unfold stored, Faiss.ntotal in Hn. lia.
  - apply knn_ok.
Qed.

Lemma similarity_search_length (s : FAISSVectorStore) (q : Faiss.Vec) (k : Z) :
  aligned s -> 1 <= stored s ->
  Z.of_nat (length q) = Faiss.d (index s) -> 0 < k ->
  exists results, similarity_search s q k = Ok results
                  /\ Z.of_nat (length results) = k.
Proof.
  intros Ha Hn Hq Hk. eexists. split; [apply similarity_search_spec; auto|].
  rewrite length_map, knn_length. lia.
Qed.

(** A store that holds nothing: every search raises. *)
Lemma similarity_search_fresh (dim : Z) (q : Faiss.Vec) (k : Z) :
  exists e, similarity_search (new_store dim) q k = Raise e.
Proof.
  unfold similarity_search, Faiss.search. simpl.
  destruct (Z.of_nat (length q) =? dim); simpl; [|eauto].
  destruct (Z.ltb_spec 0 k); simpl; [|eauto].
  unfold Faiss.knn. simpl. rewrite firstn_nil. simpl.
  destruct (Z.to_nat k) as [|k'] eqn:E; [lia|]. simpl. eauto.
Qed.

Lemma similarity_search_fresh_IndexError (dim : Z) (q : Faiss.Vec) (k : Z) :
  Z.of_nat (length q) = dim -> 0 < k ->
  similarity_search (new_store dim) q k = Raise IndexError.
Proof.
  intros Hq Hk. unfold similarity_search, Faiss.search. simpl.
  rewrite Hq, Z.eqb_refl. simpl.
  destruct (Z.ltb_spec 0 k); [|lia]. simpl.
  unfold Faiss.knn. simpl. rewrite firstn_nil. simpl.
  destruct (Z.to_nat k) as [|k'] eqn:E; [lia|]. reflexivity.
Qed.

(** *** Order of the reported pairs *)

Lemma hit_before_trans_le (a b c : Faiss.Hit) :
  (snd a <= snd b)%Q -> fst a < fst c -> hit_before b c -> hit_before a c.
Proof.
  intros Hab Hac [Hlt | [Heq _]]; unfold hit_before.
  - left. lra.
  - destruct (Qlt_le_dec (snd a) (snd c)) as [Hl|Hg]; [left; exact Hl|].
    right. split; [lra | exact Hac].
Qed.

Lemma insert_hit_sorted (h : Faiss.Hit) (l : list Faiss.Hit) :
  StronglySorted hit_before l ->
  Forall (fun h' => fst h < fst h') l ->
  StronglySorted hit_before (Faiss.insert_hit h l).
Proof.
  induction 1 as [|h' t Hs IH Hall]; intros Hlab; simpl.
  - constructor; constructor.
  - inversion Hlab as [|? ? Hh' Ht]; subst.
    destruct (Qle_bool (snd h) (snd h')) eqn:E.
    + apply Qle_bool_iff in E.
      constructor; [constructor; assumption|].
      constructor.
      * destruct (Qlt_le_dec (snd h) (snd h')) as [Hl|Hg]; [left; exact Hl|].
        right. split; [lra | exact Hh'].
      * rewrite List.Forall_forall in Hall, Ht |- *. intros x Hx.
        apply (hit_before_trans_le h h' x E (Ht x Hx) (Hall x Hx)).
    + assert (Hlt : (snd h' < snd h)%Q).
      { apply Qnot_le_lt. intros Hle. apply Qle_bool_iff in Hle. congruence. }
      constructor; [apply IH; exact Ht|].
      apply (Permutation_Forall (Permutation_sym (insert_hit_perm h t))).
      constructor; [left; exact Hlt | exact Hall].
Qed.

Lemma scan_labels_above q from vs :
  Forall (fun h => from <= fst h) (Faiss.scan q from vs).
Proof.
  eapply List.Forall_impl; [|apply scan_ok]. simpl. intros h [Hr _]. lia.
Qed.

Lemma sort_scan_sorted q from vs :
  StronglySorted hit_before (Faiss.sort_hits (Faiss.scan q from vs)).
Proof.
  revert from. induction vs as [|v vs IH]; intros from; simpl; [constructor|].
  apply insert_hit_sorted; [apply IH|].
  apply (Permutation_Forall (Permutation_sym (sort_hits_perm _))).
  eapply List.Forall_impl; [|apply (scan_labels_above q (from + 1) vs)].
  simpl. intros h Hh. lia.
Qed.

Lemma StronglySorted_firstn {A : Type} (R : A -> A -> Prop) (n : nat) (l : list A) :
  StronglySorted R l -> StronglySorted R (firstn n l).
Proof.
  intros Hs. revert n. induction Hs as [|x l Hs IH Hall]; intros [|n]; simpl;
    try constructor; auto.
  apply Forall_take. exact Hall.
Qed.

(** *** Scores *)

Lemma score_one_iff (distance : Q) :
  (0 <= distance)%Q -> ((1 / (1 + distance) == 1)%Q <-> (distance == 0)%Q).
Proof.
  intros H. split; intros E.
  - assert (Hne : ~ (1 + distance == 0)%Q) by lra.
    assert (Hm : (1 / (1 + distance) * (1 + distance) == 1)%Q) by (field; exact Hne).
    rewrite E in Hm. lra.
  - rewrite E. reflexivity.
Qed.

Lemma score_antitone (a b : Q) :
  (0 <= a)%Q -> (a <= b)%Q -> (1 / (1 + b) <= 1 / (1 + a))%Q.
Proof.
  intros Ha Hab.
  apply Qle_shift_div_l; [lra|].
  assert (E : (1 / (1 + b) * (1 + a) == (1 + a) / (1 + b))%Q) by (field; lra).
  rewrite E. apply Qle_shift_div_r; lra.
Qed.

(** *** A search that asks for no more than the index holds *)

Lemma scan_reported q from vs :
  Forall (fun h => from <= fst h /\
                   exists v, nth_error vs (Z.to_nat (fst h - from)) = Some v
                             /\ snd h = Faiss.l2sqr q v)
         (Faiss.scan q from vs).
Proof.
  revert from. induction vs as [|v vs IH]; intros from; simpl; constructor.
  - simpl. split; [lia|]. exists v. rewrite Z.sub_diag. auto.
  - eapply List.Forall_impl; [|apply (IH (from + 1))].
    simpl. intros h [Hr [w [Hw Hd]]]. split; [lia|]. exists w. split; [|exact Hd].
    replace (Z.to_nat (fst h - from)) with (S (Z.to_nat (fst h - (from + 1)))) by lia.
    exact Hw.
Qed.

Lemma knn_full ix q k :
  (k <= length (Faiss.xb ix))%nat ->
  Faiss.knn ix q k = firstn k (Faiss.sort_hits (Faiss.scan q 0 (Faiss.xb ix))).
Proof.
  intros Hk. unfold Faiss.knn.
  rewrite firstn_length_le by (rewrite sort_hits_length, scan_length; exact Hk).
  rewrite Nat.sub_diag. apply app_nil_r.
Qed.

Lemma knn_full_reported ix q k :
  (k <= length (Faiss.xb ix))%nat -> Forall (reported ix q) (Faiss.knn ix q k).
Proof.
  intros Hk. rewrite knn_full by exact Hk. apply Forall_take.
  apply (Permutation_Forall (Permutation_sym (sort_hits_perm _))).
  eapply List.Forall_impl; [|apply (scan_reported q 0 (Faiss.xb ix))].
  intros h [Hr [v [Hv Hd]]]. split; [exact Hr|]. exists v.
  rewrite Z.sub_0_r in Hv. auto.
Qed.

Lemma knn_full_sorted ix q k :
  (k <= length (Faiss.xb ix))%nat -> StronglySorted hit_before (Faiss.knn ix q k).
Proof.
  intros Hk. rewrite knn_full by exact Hk.
  apply StronglySorted_firstn, sort_scan_sorted.
Qed.

Lemma hit_before_score (s : FAISSVectorStore) (a b : Faiss.Hit) :
  (0 <= snd a)%Q -> hit_before a b -> score_ge (hit_doc s a) (hit_doc s b).
Proof.
  intros Ha Hab. unfold score_ge, hit_doc; simpl.
  apply score_antitone; [exact Ha|]. destruct Hab as [Hl | [He _]]; lra.
Qed.

Lemma sorted_scores (s : FAISSVectorStore) (hits : list Faiss.Hit) :
  Forall (fun h => (0 <= snd h)%Q) hits ->
  StronglySorted hit_before hits ->
  StronglySorted score_ge (map (hit_doc s) hits).
Proof.
  intros Hpos Hs. induction Hs as [|h t Hs IH Hall]; simpl; constructor.
  - apply IH. now inversion Hpos.
  - inversion Hpos as [|? ? Hh Ht]; subst.
    apply List.Forall_map. eapply List.Forall_impl; [|exact Hall].
    intros b Hb. apply hit_before_score; assumption.
Qed.

(** When the index holds at least the [k] documents asked for,
    [similarity_search] returns [k] entries, one per reported pair; the pairs
    name stored documents with their squared distance to the query and come
    by ascending distance, ties in insertion order; the scores are
    [1 / (1 + d)] and non-increasing; and an entry scores [1] exactly when
    its distance is [0]. *)
Lemma similarity_search_full_index (s : FAISSVectorStore) (q : Faiss.Vec) (k : Z) :
  aligned s -> Z.of_nat (length q) = Faiss.d (index s) ->
  1 <= k <= stored s ->
  exists hits,
    similarity_search s q k = Ok (map (hit_doc s) hits)
    /\ Z.of_nat (length hits) = k
    /\ Forall (reported (index s) q) hits
    /\ StronglySorted hit_before hits
    /\ StronglySorted score_ge (map (hit_doc s) hits)
    /\ Forall (fun h => (doc_score (hit_doc s h) == 1 / (1 + snd h))%Q
                        /\ ((doc_score (hit_doc s h) == 1)%Q <-> (snd h == 0)%Q))
              hits.
Proof.
  intros Ha Hq [Hk1 Hk2]. unfold stored, Faiss.ntotal in Hk2.
  assert (Hk : (Z.to_nat k <= length (Faiss.xb (index s)))%nat) by lia.
  assert (Hpos : Forall (fun h => (0 <= snd h)%Q) (Faiss.knn (index s) q (Z.to_nat k))).
  { eapply List.Forall_impl; [|apply knn_ok]. intros h [_ Hd]. exact Hd. }
  exists (Faiss.knn (index s) q (Z.to_nat k)). repeat split.
  - apply similarity_search_spec; auto. unfold stored, Faiss.ntotal. lia. lia.
  - rewrite knn_length. lia.
  - apply knn_full_reported, Hk.
  - apply knn_full_sorted, Hk.
  - apply sorted_scores; [exact Hpos | apply knn_full_sorted, Hk].
  - eapply List.Forall_impl; [|exact Hpos]. intros h Hh. simpl.
    split; [reflexivity | apply score_one_iff, Hh].
Qed.

(** *** A search that asks for more than the index holds *)

(** C2.  The store holds one document and the search asks for two: the
    result has two entries, both the one stored document, not [min 2 1 = 1]
    entries with every document once.  The index reports the missing
    neighbour under label [-1], which passes [idx < len(self.texts)] and is
    read as [self.texts[-1]].  On a store that holds nothing the same read
    raises [IndexError] instead of returning the empty list. *)
Theorem short_index_overfull_result :
  aligned one_doc_store /\ stored one_doc_store = 1
  /\ (exists r1 r2,
        similarity_search one_doc_store [1%Q; 0%Q] 2 = Ok [r1; r2]
        /\ doc_text r1 = "Louvre" /\ doc_text r2 = "Louvre"
        /\ Z.of_nat (length [r1; r2]) <> Z.min 2 (stored one_doc_store))
  /\ stored (new_store 2) = 0
  /\ similarity_search (new_store 2) [1%Q; 0%Q] 2 = Raise IndexError.
Proof.
  split; [split; reflexivity|]. split; [reflexivity|]. split.
  - eexists. eexists. split; [vm_compute; reflexivity|].
    repeat split. vm_compute. discriminate.
  - split; reflexivity.
Qed.

(** C3.  With two stored documents and three asked for, the third entry is
    the document "Orsay" again, whose squared distance to the query is 25,
    but its score is the one of the missing neighbour and not
    [1 / (1 + 25)]. *)
Theorem padded_entry_score_mismatch :
  aligned two_doc_store /\ stored two_doc_store = 2
  /\ exists r1 r2 r3,
       similarity_search two_doc_store [0%Q; 0%Q] 3 = Ok [r1; r2; r3]
       /\ doc_text r2 = "Orsay" /\ (doc_score r2 == 1 / (1 + 25))%Q
       /\ doc_text r3 = "Orsay"
       /\ (Faiss.l2sqr [0%Q; 0%Q] [3%Q; 4%Q] == 25)%Q
       /\ ~ (doc_score r3 == 1 / (1 + 25))%Q
       /\ (doc_score r3 == 1 / (1 + Faiss.FLT_MAX))%Q.
Proof.
  split; [split; reflexivity|]. split; [reflexivity|].
  eexists. eexists. eexists. split; [vm_compute; reflexivity|].
  repeat split; try (vm_compute; reflexivity).
  vm_compute. discriminate.
Qed.

(** ** Persistence *)









(** ** Loading retrievers *)

(** A retriever whose store holds nothing raises on every retrieval. *)
Lemma retrieve_fresh (embed_text : string -> Faiss.Vec) (r : BaseRetriever) (dim : Z) query k filters :
  vector_store r = new_store dim ->
  exists e, retrieve embed_text r query k filters = Raise e.
Proof.
  intros Hs. unfold retrieve. rewrite Hs.
  destruct (similarity_search_fresh dim (embed_text query) (k * 2)) as [e He].
  rewrite He. simpl. eauto.
Qed.

Lemma retrieve_fresh_IndexError (embed_text : string -> Faiss.Vec) (r : BaseRetriever) (dim : Z) query k filters :
  vector_store r = new_store dim ->
  Z.of_nat (length (embed_text query)) = dim -> 0 < k ->
  retrieve embed_text r query k filters = Raise IndexError.
Proof.
  intros Hs Hq Hk. unfold retrieve. rewrite Hs.
  rewrite similarity_search_fresh_IndexError by (auto; lia). reflexivity.
Qed.

(** [load] on a location that does not exist returns [False] and leaves the
    retriever as it was. *)
Lemma retriever_load_missing (r : BaseRetriever) (fs : FS) :
  fs !! store_path r = None -> retriever_load r fs = (r, false).
Proof. intros H. unfold retriever_load, path_exists. rewrite H. reflexivity. Qed.

(** [load] returns [True] only when all three files were read. *)
Lemma retriever_load_true (r r' : BaseRetriever) (fs : FS) :
  retriever_load r fs = (r', true) ->
  exists ix ts ms,
    fs !! joinpath (store_path r) "index.faiss" = Some (IndexBlob ix)
    /\ fs !! joinpath (store_path r) "texts.json" = Some (JsonTexts ts)
    /\ fs !! joinpath (store_path r) "metadata.json" = Some (JsonMetadata ms)
    /\ vector_store r' = {| dimension := dimension (vector_store r); index := ix;
                            texts := ts; metadatas := ms |}.
Proof.
  unfold retriever_load, load, read_index, load_texts, load_metadata.
  destruct (path_exists fs (store_path r)); simpl; [|discriminate].
  destruct (fs !! joinpath (store_path r) "index.faiss") as [[]|]; simpl;
    try discriminate.
  destruct (fs !! joinpath (store_path r) "texts.json") as [[]|]; simpl;
    try discriminate.
  destruct (fs !! joinpath (store_path r) "metadata.json") as [[]|]; simpl;
    try discriminate.
  intros H. inversion H. simpl. eauto 10.
Qed.

(** [load_all] loads each category on its own. *)
Lemma load_all_each (m : MultiSourceRetriever) (fs : FS) :
  load_all m fs
  = {| attractions := fst (retriever_load (attractions m) fs);
       food := fst (retriever_load (food m) fs);
       tips := fst (retriever_load (tips m) fs);
       itineraries := fst (retriever_load (itineraries m) fs) |}.
Proof. reflexivity. Qed.

Lemma load_all_nothing_persisted : load_all new_multi ∅ = new_multi.
Proof. reflexivity. Qed.

(** A directory with [metadata.json] missing: [load] returns [False], yet
    the index and the texts of the retriever have been replaced and its
    metadata have not. *)
Lemma retriever_load_half_written :
  exists r', retriever_load AttractionRetriever half_written_fs = (r', false)
    /\ index (vector_store r') = index one_doc_store
    /\ texts (vector_store r') = ["Louvre"]
    /\ metadatas (vector_store r') = [].
Proof. eexists. split; [vm_compute; reflexivity|]. repeat split. Qed.

(** C9.  Nothing is persisted.  [load] returns [False] for every category
    without raising and [load_all] completes, but the retrievers do not
    serve as empty: every retrieval raises (an [IndexError] when the query
    embedding has the index dimension and [k > 0], as for the all-zero
    embedding and [k = 10]) instead of returning the empty list. *)
Theorem cold_start_retrieval_raises (embed_text : string -> Faiss.Vec)
    (c : RetrieverClass) (src : KnowledgeSource)
    (query : string) (k : Z) (filters : option Filters) :
  load_all new_multi ∅ = new_multi
  /\ retriever_load (new_retriever c src) ∅ = (new_retriever c src, false)
  /\ (exists e,
        retrieve embed_text (fst (retriever_load (new_retriever c src) ∅))
                 query k filters = Raise e)
  /\ retrieve zero_embedding
              (fst (retriever_load (new_retriever c src) ∅))
              query max_retrieval_results filters = Raise IndexError.
Proof.
  split; [reflexivity|].
  assert (Hl : retriever_load (new_retriever c src) ∅ = (new_retriever c src, false))
    by apply retriever_load_missing, lookup_empty.
  split; [exact Hl|]. rewrite Hl. cbn [fst]. split.
  - apply (retrieve_fresh _ _ embedding_dimension). reflexivity.
  - apply (retrieve_fresh_IndexError _ _ embedding_dimension);
      [reflexivity | unfold zero_embedding; rewrite repeat_length; reflexivity
       | reflexivity].
Qed.


(** ** The category filters *)

Lemma str_in_In (x : string) (l : list string) : str_in x l = true <-> In x l.
Proof.
  unfold str_in. rewrite existsb_exists. split.
  - intros [y [Hy E]]. apply String.eqb_eq in E. now subst.
  - intros H. exists x. split; [exact H | apply String.eqb_refl].
Qed.

Lemma str_in_nil_r (l : list string) : existsb (fun x => str_in x []) l = false.
Proof. induction l; simpl; auto. Qed.

Lemma filter_In_iff {A : Type} (p : A -> bool) (x : A) (l : list A) :
  In x (List.filter p l) <-> In x l /\ p x = true.
Proof. apply filter_In. Qed.

Lemma skip_required_tags_missing (f : Filters) (md : Metadata) req tag :
  f_required_tags f = Some req -> In tag req -> ~ In tag (tags_of md) ->
  skip_required_tags f md = true.
Proof.
  intros Hf Hin Hnot. unfold skip_required_tags. rewrite Hf.
  apply negb_true_iff. apply not_true_is_false. intros Hall.
  rewrite forallb_forall in Hall. apply Hnot. apply str_in_In. apply Hall, Hin.
Qed.

Lemma skip_excluded_tags_untagged (f : Filters) (md : Metadata) :
  tags_of md = [] -> skip_excluded_tags f md = false.
Proof.
  intros Ht. unfold skip_excluded_tags. destruct (f_excluded_tags f); [|reflexivity].
  fold (tags_of md). rewrite Ht. apply str_in_nil_r.
Qed.

(** C6.  An attraction whose tags lack one of the [required_tags] is not in
    the filtered list, whatever else the filter record and its metadata
    hold; and for an attraction with no tags ([tags] empty or absent) the
    [excluded_tags] key never skips it: it is in the filtered list exactly
    when it is with that key removed. *)
Theorem attraction_filter_tags (f : Filters) (results : list Document)
    (r r' : Document) :
  (forall req tag,
      f_required_tags f = Some req -> In tag req ->
      ~ In tag (tags_of (doc_metadata r)) ->
      ~ In r (_apply_filters AttractionRetrieverC results f))
  /\ (tags_of (doc_metadata r') = [] ->
      skip_excluded_tags f (doc_metadata r') = false
      /\ (In r' (_apply_filters AttractionRetrieverC results f)
          <-> In r' (_apply_filters AttractionRetrieverC results
                                   (without_excluded_tags f)))).
Proof.
  split.
  - intros req tag Hf Hin Hnot Hr. simpl in Hr. apply filter_In_iff in Hr.
    destruct Hr as [_ Hk]. unfold attraction_keeps in Hk.
    rewrite (skip_required_tags_missing f _ req tag Hf Hin Hnot) in Hk.
    destruct (skip_max_price f (doc_metadata r));
      destruct (skip_categories f (doc_metadata r)); discriminate.
  - intros Ht. pose proof (skip_excluded_tags_untagged f _ Ht) as He.
    split; [exact He|]. simpl. rewrite !filter_In_iff.
    unfold attraction_keeps. rewrite He.
    change (skip_excluded_tags (without_excluded_tags f) (doc_metadata r')) with false.
    reflexivity.
Qed.

Lemma attraction_filter_tags_witness :
  ~ In art_only (_apply_filters AttractionRetrieverC [art_only; untagged] art_food_filters)
  /\ skip_excluded_tags crowds_filter (doc_metadata untagged) = false
  /\ (In untagged (_apply_filters AttractionRetrieverC [art_only; untagged] crowds_filter)
      <-> In untagged (_apply_filters AttractionRetrieverC [art_only; untagged]
                                     (without_excluded_tags crowds_filter))).
Proof.
  split.
  - refine (proj1 (attraction_filter_tags art_food_filters [art_only; untagged]
                     art_only untagged) ["art"; "food"] "food" eq_refl _ _).
    + right. left. reflexivity.
    + intros [E | []]. discriminate E.
  - exact (proj2 (attraction_filter_tags crowds_filter [art_only; untagged]
                    art_only untagged) eq_refl).
Defined.

Lemma str_in_false (x : string) (l : list string) : str_in x l = false <-> ~ In x l.
Proof.
  rewrite <- str_in_In. destruct (str_in x l); split; intros; congruence.
Qed.

Lemma exists_str_in (xs tags : list string) :
  existsb (fun t => str_in t tags) xs = true <-> (exists t, In t xs /\ In t tags).
Proof.
  rewrite existsb_exists. split; intros [t [H1 H2]]; exists t; split; auto;
    apply str_in_In; exact H2.
Qed.

(** The [dietary_restrictions] key lets a restaurant through exactly when the
    key is absent or one of the requested options is among its
    [dietary_options]. *)
Lemma skip_dietary_false (f : Filters) (md : Metadata) :
  skip_dietary f md = false
  <-> forall required, f_dietary_restrictions f = Some required ->
        exists opt, In opt required /\ In opt (dietary_options_of md).
Proof.
  unfold skip_dietary, dietary_options_of. destruct (f_dietary_restrictions f) as [req|].
  - rewrite negb_false_iff, exists_str_in.
    split; [intros H x E; injection E as <-; exact H | intros H; exact (H req eq_refl)].
  - split; [discriminate | reflexivity].
Qed.

Lemma skip_cuisines_false (f : Filters) (md : Metadata) :
  skip_cuisines f md = false
  <-> forall cs, f_cuisines f = Some cs ->
        exists c, In c cs /\ In c (cuisine_of md).
Proof.
  unfold skip_cuisines, cuisine_of. destruct (f_cuisines f) as [cs|].
  - rewrite negb_false_iff, exists_str_in.
    split; [intros H x E; injection E as <-; exact H | intros H; exact (H cs eq_refl)].
  - split; [discriminate | reflexivity].
Qed.

(** The [budget_level] key lets a restaurant through exactly when the key is
    absent, or the level is BUDGET and the price range is "€" or "€€", or
    the level is MODERATE, or the level is LUXURY and the price range is not
    "€". *)
Lemma skip_budget_false (f : Filters) (md : Metadata) :
  skip_budget f md = false
  <-> (f_budget_level f = Some BUDGET ->
         price_range_of md = euro \/ price_range_of md = euro2)
      /\ (f_budget_level f = Some LUXURY -> price_range_of md <> euro).
Proof.
  unfold skip_budget, price_range_of. destruct (f_budget_level f) as [b|].
  2:{ split; [intros _; split; discriminate | reflexivity]. }
  set (p := default euro2 (md_price_range md)).
  assert (Hin : str_in p [euro; euro2] = true <-> p = euro \/ p = euro2).
  { rewrite str_in_In. simpl. intuition congruence. }
  destruct b; cbn [budget_eqb andb].
  - destruct (str_in p [euro; euro2]) eqn:E; cbn [negb].
    + split; [|reflexivity]. intros _.
      split; [intros _; apply Hin; reflexivity | discriminate].
    + split; [discriminate|]. intros [H1 _].
      apply Hin in H1; [discriminate | reflexivity].
  - split; [|reflexivity]. intros _. split; discriminate.
  - destruct (String.eqb_spec p euro) as [Ep|Ep].
    + split; [discriminate|]. intros [_ H2].
      exfalso. apply H2; [reflexivity | exact Ep].
    + split; [|reflexivity]. intros _.
      split; [discriminate | intros _; exact Ep].
Qed.

(** The claim as stated fails on a restaurant whose price range is none of
    the three bands: with the [budget_level] key alone and the level BUDGET,
    the filter drops "La Grande Table", whose price range is "€€€€" and not
    "€€€". *)
Lemma budget_excludes_unlisted_band :
  ~ (forall (f : Filters) (results : list Document) (r : Document),
        In r results ->
        f_dietary_restrictions f = None -> f_cuisines f = None ->
        (f_budget_level f = Some BUDGET ->
           (~ In r (_apply_filters FoodRetrieverC results f)
            <-> price_range_of (doc_metadata r) = euro3))
        /\ (f_budget_level f = Some LUXURY ->
              (~ In r (_apply_filters FoodRetrieverC results f)
               <-> price_range_of (doc_metadata r) = euro))).
Proof.
  intros H.
  destruct (H (budget_only BUDGET) [grand_table] grand_table
              (or_introl eq_refl) eq_refl eq_refl) as [Hb _].
  assert (E : price_range_of (doc_metadata grand_table) = euro3).
  { apply (Hb eq_refl). intros []. }
  discriminate E.
Qed.

(** C7, amended.  [FoodRetriever._apply_filters] keeps a candidate of the
    list exactly when it passes every key of the filter record.  The
    [dietary_restrictions] key is passed when at least one requested option
    is among the candidate's [dietary_options] (it need not have them all).
    The [budget_level] key with BUDGET is passed exactly by the price ranges
    "€" and "€€" ("€€" when the metadata have none): it excludes "€€€" and
    every other value as well; with LUXURY it excludes exactly the price
    range "€"; with MODERATE it excludes nothing.  The [cuisines] key is
    passed when at least one requested cuisine is among the candidate's. *)
Theorem food_filter_exact (f : Filters) (results : list Document) (r : Document) :
  In r (_apply_filters FoodRetrieverC results f)
  <-> In r results
      /\ (forall required, f_dietary_restrictions f = Some required ->
            exists opt, In opt required
                        /\ In opt (dietary_options_of (doc_metadata r)))
      /\ (f_budget_level f = Some BUDGET ->
            price_range_of (doc_metadata r) = euro
            \/ price_range_of (doc_metadata r) = euro2)
      /\ (f_budget_level f = Some LUXURY ->
            price_range_of (doc_metadata r) <> euro)
      /\ (forall cs, f_cuisines f = Some cs ->
            exists c, In c cs /\ In c (cuisine_of (doc_metadata r))).
Proof.
  change (_apply_filters FoodRetrieverC results f)
    with (List.filter (fun r => food_keeps f (doc_metadata r)) results).
  rewrite filter_In_iff.
  rewrite <- skip_dietary_false, <- skip_cuisines_false.
  pose proof (skip_budget_false f (doc_metadata r)) as Hb.
  unfold food_keeps.
  destruct (skip_dietary f (doc_metadata r)), (skip_budget f (doc_metadata r)),
    (skip_cuisines f (doc_metadata r)); intuition discriminate.
Qed.

Lemma food_filter_exact_witness :
  In bistro (_apply_filters FoodRetrieverC [bistro] veg_or_halal_only)
  /\ ~ In bistro (_apply_filters FoodRetrieverC [bistro] veg_or_halal_budget)
  /\ ~ In grand_table (_apply_filters FoodRetrieverC [grand_table] (budget_only BUDGET)).
Proof.
  split; [|split].
  - apply (proj2 (food_filter_exact veg_or_halal_only [bistro] bistro)).
    split; [left; reflexivity|].
    split; [intros required E; injection E as <-; exists "vegetarian";
            split; [right; left; reflexivity | left; reflexivity]|].
    split; [discriminate|]. split; discriminate.
  - intros Hin.
    destruct (proj1 (food_filter_exact veg_or_halal_budget [bistro] bistro) Hin)
      as (_ & _ & Hb & _).
    destruct (Hb eq_refl) as [E | E]; discriminate E.
  - intros Hin.
    destruct (proj1 (food_filter_exact (budget_only BUDGET) [grand_table] grand_table)
                Hin) as (_ & _ & Hb & _).
    destruct (Hb eq_refl) as [E | E]; discriminate E.
Defined.

(** ** Food retrieval without dietary restrictions *)

Lemma skip_dietary_empty (f : Filters) (md : Metadata) :
  f_dietary_restrictions f = Some [] -> skip_dietary f md = true.
Proof. intros Hf. unfold skip_dietary. rewrite Hf. reflexivity. Qed.

Lemma food_filter_empty_dietary (f : Filters) (results : list Document) :
  f_dietary_restrictions f = Some [] -> _apply_filters FoodRetrieverC results f = [].
Proof.
  intros Hf. simpl. induction results as [|r rs IH]; [reflexivity|].
  simpl. unfold food_keeps at 1. rewrite (skip_dietary_empty f _ Hf). exact IH.
Qed.

Lemma food_filters_of_prefs (prefs : UserPreferences) :
  exists f, source_lookup (_build_filters prefs) FOOD = Some f
            /\ f_dietary_restrictions f = Some (dietary_restrictions prefs)
            /\ f_budget_level f = Some (budget_level prefs)
            /\ filters_truthy f = true.
Proof. eexists. split; [reflexivity|]. repeat split. Qed.

(** Where the store holds at least one document, food retrieval for a user
    without dietary restrictions returns the empty list: the intent-analysis
    node puts [dietary_restrictions] bound to the empty list in the food
    filter record, and the food filter then rejects every candidate. *)
Lemma food_retrieval_no_dietary_empty (embed_text : string -> Faiss.Vec)
    (prefs : UserPreferences) (r : BaseRetriever) (query : string) (k : Z) :
  dietary_restrictions prefs = [] -> cls r = FoodRetrieverC ->
  aligned (vector_store r) -> 1 <= stored (vector_store r) ->
  Z.of_nat (length (embed_text query)) = Faiss.d (index (vector_store r)) ->
  0 < k ->
  exists f,
    source_lookup (_build_filters prefs) FOOD = Some f
    /\ f_dietary_restrictions f = Some []
    /\ (forall results, _apply_filters FoodRetrieverC results f = [])
    /\ retrieve embed_text r query k (Some f) = Ok [].
Proof.
  intros Hd Hc Ha Hn Hq Hk.
  destruct (food_filters_of_prefs prefs) as (f & Hf & Hdiet & _ & Htruthy).
  rewrite Hd in Hdiet. exists f. split; [exact Hf|]. split; [exact Hdiet|].
  split; [intros results; apply food_filter_empty_dietary, Hdiet|].
  unfold retrieve.
  destruct (similarity_search_length (vector_store r) (embed_text query) (k * 2))
    as (results & Hs & _); auto; try lia.
  rewrite Hs. simpl. rewrite Htruthy, Hc.
  rewrite (food_filter_empty_dietary f results Hdiet). rewrite firstn_nil. reflexivity.
Qed.

Lemma food_retrieval_no_dietary_stocked :
  exists f,
    source_lookup (_build_filters plan_prefs) FOOD = Some f
    /\ f_dietary_restrictions f = Some []
    /\ (forall results, _apply_filters FoodRetrieverC results f = [])
    /\ retrieve zero_embedding stocked_food_retriever (_build_query plan_prefs FOOD)
                max_retrieval_results (Some f) = Ok [].
Proof.
  apply (food_retrieval_no_dietary_empty zero_embedding plan_prefs
           stocked_food_retriever (_build_query plan_prefs FOOD) max_retrieval_results).
  - reflexivity.
  - reflexivity.
  - split; reflexivity.
  - vm_compute. discriminate.
  - unfold zero_embedding. rewrite repeat_length. reflexivity.
  - reflexivity.
Qed.

(** C10.  For a user without dietary restrictions the intent-analysis node
    puts [dietary_restrictions] bound to the empty list in the food filter
    record, and the food filter rejects every candidate list, as the claim
    says.  But food retrieval does not return the empty list regardless of
    the index contents: on a food retriever whose index holds nothing (as
    built, before anything is ingested or loaded) it raises, whatever the
    embedding model, the query and [k]; with an embedding of the index
    dimension and the configured [k] the exception is an [IndexError]. *)
Theorem food_retrieval_no_dietary_raises (embed_text : string -> Faiss.Vec)
    (prefs : UserPreferences) (query : string) (k : Z) :
  dietary_restrictions prefs = [] ->
  exists f,
    source_lookup (_build_filters prefs) FOOD = Some f
    /\ f_dietary_restrictions f = Some []
    /\ (forall results, _apply_filters FoodRetrieverC results f = [])
    /\ (exists e, retrieve embed_text FoodRetriever query k (Some f) = Raise e)
    /\ retrieve zero_embedding FoodRetriever query max_retrieval_results (Some f)
       = Raise IndexError.
Proof.
  intros Hd.
  destruct (food_filters_of_prefs prefs) as (f & Hf & Hdiet & _).
  rewrite Hd in Hdiet. exists f. split; [exact Hf|]. split; [exact Hdiet|].
  split; [intros results; apply food_filter_empty_dietary, Hdiet|]. split.
  - apply (retrieve_fresh _ _ embedding_dimension). reflexivity.
  - apply (retrieve_fresh_IndexError _ _ embedding_dimension);
      [reflexivity | unfold zero_embedding; rewrite repeat_length; reflexivity
       | reflexivity].
Qed.

Lemma food_retrieval_no_dietary_raises_witness :
  exists f,
    source_lookup (_build_filters plan_prefs) FOOD = Some f
    /\ f_dietary_restrictions f = Some []
    /\ (forall results, _apply_filters FoodRetrieverC results f = [])
    /\ (exists e, retrieve zero_embedding FoodRetriever (_build_query plan_prefs FOOD)
                           max_retrieval_results (Some f) = Raise e)
    /\ retrieve zero_embedding FoodRetriever (_build_query plan_prefs FOOD)
                max_retrieval_results (Some f) = Raise IndexError.
Proof.
  apply (food_retrieval_no_dietary_raises zero_embedding plan_prefs
           (_build_query plan_prefs FOOD) max_retrieval_results).
  reflexivity.
Defined.

(** ** The planning graph *)

Section Graph.

Variable embed_text : string -> Faiss.Vec.
Variable format_score : Q -> string.
Variable json_dumps : Metadata -> string.

(** *** The retrieval nodes and the state fields *)

(** A retrieval node that returns has written one key, its [context_key]. *)
Lemma retriever_node_writes_one_key (n : ParallelRetrieverNode)
    (state : PlannerState) (u : Update) :
  retriever_node embed_text n state = Ok u ->
  exists results, u = [(context_key (source n), VDocs results)].
Proof.
  unfold retriever_node.
  destruct (get_strategy state); simpl; [|discriminate].
  destruct (get_prefs state); simpl; [|discriminate].
  destruct (_get_retriever (retriever n) (source n)); simpl; [|discriminate].
  destruct (retrieve embed_text _ _ _ _); simpl; [|discriminate].
  intros H. inversion H. eauto.
Qed.

(** For attractions, food and tips this key is the field the aggregator
    reads. *)
Lemma context_key_read_by_aggregator :
  context_key ATTRACTIONS = "attractions_context"
  /\ context_key FOOD = "food_context"
  /\ context_key TIPS = "tips_context".
Proof. repeat split. Qed.

(** C1.  The retrieval node of the itineraries category writes the key
    "itineraries_context".  That is not the declared result field
    "itinerary_context" the aggregator reads (nor any declared field): the
    merge drops the write, and the aggregator reads for itineraries what it
    read before the node ran, also when the key is kept in the state. *)
Theorem itinerary_node_output_unread (state : PlannerState) (results : list Document) :
  context_key ITINERARIES = "itineraries_context"
  /\ context_key ITINERARIES <> "itinerary_context"
  /\ str_in (context_key ITINERARIES) declared_fields = false
  /\ str_in "itinerary_context" declared_fields = true
  /\ apply_writes state [] [(context_key ITINERARIES, VDocs results)] = Ok state
  /\ get_docs (<[context_key ITINERARIES := VDocs results]> state) "itinerary_context"
     = get_docs state "itinerary_context".
Proof.
  split; [reflexivity|]. split; [discriminate|]. split; [reflexivity|].
  split; [reflexivity|]. split; [reflexivity|].
  unfold get_docs. rewrite lookup_insert_ne by discriminate. reflexivity.
Qed.

(** *** Runs of the graph as it is built *)

(** The retrieval nodes of the module own retrievers that are never loaded:
    whatever the state, they raise. *)
Lemma retriever_node_fresh (src : KnowledgeSource) (state : PlannerState) :
  exists e, retriever_node embed_text (new_node src) state = Raise e.
Proof.
  unfold retriever_node.
  destruct (get_strategy state) as [strategy|e]; simpl; [|eauto].
  destruct (get_prefs state) as [prefs|e]; simpl; [|eauto].
  destruct src; simpl; eauto;
    match goal with
    | |- context [retrieve embed_text ?r ?q ?k ?f] =>
        destruct (retrieve_fresh embed_text r embedding_dimension q k f eq_refl)
          as [e He];
        rewrite He; simpl; eauto
    end.
Qed.

Lemma planner_graph_edges (na nf nt ni : ParallelRetrieverNode) :
  edges (planning_graph_of embed_text format_score json_dumps na nf nt ni)
  = [ ("analyze_intent", "retrieve_attractions"); ("analyze_intent", "retrieve_food");
      ("analyze_intent", "retrieve_tips"); ("analyze_intent", "retrieve_itineraries");
      ("retrieve_attractions", "aggregate_context");
      ("retrieve_food", "aggregate_context");
      ("retrieve_tips", "aggregate_context");
      ("retrieve_itineraries", "aggregate_context");
      ("aggregate_context", END) ].
Proof. reflexivity. Qed.

Lemma successors_analyze (na nf nt ni : ParallelRetrieverNode) :
  successors (planning_graph_of embed_text format_score json_dumps na nf nt ni)
             ["analyze_intent"] = retrieval_step.
Proof. unfold successors. rewrite planner_graph_edges. reflexivity. Qed.

Lemma successors_retrieval (na nf nt ni : ParallelRetrieverNode) :
  successors (planning_graph_of embed_text format_score json_dumps na nf nt ni)
             retrieval_step = ["aggregate_context"].
Proof. unfold successors. rewrite planner_graph_edges. reflexivity. Qed.

Lemma successors_aggregate (na nf nt ni : ParallelRetrieverNode) :
  successors (planning_graph_of embed_text format_score json_dumps na nf nt ni)
             ["aggregate_context"] = [].
Proof. unfold successors. rewrite planner_graph_edges. reflexivity. Qed.

End Graph.

Section Runs.

Variable embed_text : string -> Faiss.Vec.
Variable format_score : Q -> string.
Variable json_dumps : Metadata -> string.

Lemma pregel_unfold (fuel : nat) (g : StateGraph) (state : PlannerState)
    (n : string) (ns : list string) (trace : list (list string)) :
  pregel (S fuel) g state (n :: ns) trace
  = match run_nodes g state (n :: ns) with
    | Raise e => ((trace ++ [n :: ns])%list, Raise e)
    | Ok updates =>
        match apply_writes state [] (concat updates) with
        | Raise e => ((trace ++ [n :: ns])%list, Raise e)
        | Ok state' =>
            pregel fuel g state' (successors g (n :: ns)) (trace ++ [n :: ns])%list
        end
    end.
Proof. reflexivity. Qed.

(** Whatever the retrieval nodes and the input, a run goes through the
    steps of [full_trace] in order and stops: it ends after the aggregation
    step when it returns, and at the step that raises otherwise. *)
Lemma invoke_trace (na nf nt ni : ParallelRetrieverNode) (input : Update) :
  exists (n : nat) (res : Result PlannerState),
    invoke (planning_graph_of embed_text format_score json_dumps na nf nt ni) input
    = (firstn n full_trace, res)
    /\ (returns res -> n = 3%nat).
Proof.
  unfold invoke.
  change (entry_point (planning_graph_of _ _ _ _ _ _ _)) with (Some "analyze_intent").
  destruct (apply_writes ∅ [] input) as [st0|e].
  2:{ exists 0%nat, (Raise e). split; [reflexivity|]. intros [a Ha]; discriminate Ha. }
  unfold recursion_limit. rewrite pregel_unfold.
  destruct (run_nodes _ st0 _) as [u1|e].
  2:{ exists 1%nat, (Raise e). split; [reflexivity|]. intros [a Ha]; discriminate Ha. }
  destruct (apply_writes st0 [] _) as [st1|e].
  2:{ exists 1%nat, (Raise e). split; [reflexivity|]. intros [a Ha]; discriminate Ha. }
  rewrite successors_analyze. unfold retrieval_step at 1.
  rewrite pregel_unfold.
  destruct (run_nodes _ st1 _) as [u2|e].
  2:{ exists 2%nat, (Raise e). split; [reflexivity|]. intros [a Ha]; discriminate Ha. }
  destruct (apply_writes st1 [] _) as [st2|e].
  2:{ exists 2%nat, (Raise e). split; [reflexivity|]. intros [a Ha]; discriminate Ha. }
  change ["retrieve_attractions"; "retrieve_food"; "retrieve_tips";
          "retrieve_itineraries"] with retrieval_step.
  rewrite successors_retrieval. rewrite pregel_unfold.
  destruct (run_nodes _ st2 _) as [u3|e].
  2:{ exists 3%nat, (Raise e). split; reflexivity. }
  destruct (apply_writes st2 [] _) as [st3|e].
  2:{ exists 3%nat, (Raise e). split; reflexivity. }
  rewrite successors_aggregate.
  exists 3%nat, (Ok st3). split; reflexivity.
Qed.

(** The graph as it is built never returns: the module-level retrieval
    nodes raise in the second step at the latest. *)
Lemma planner_graph_never_returns (input : Update) :
  exists trace e,
    invoke (planner_graph embed_text format_score json_dumps) input
    = (trace, Raise e).
Proof.
  unfold invoke, planner_graph, build_planning_graph.
  change (entry_point (planning_graph_of _ _ _ _ _ _ _)) with (Some "analyze_intent").
  destruct (apply_writes ∅ [] input) as [st0|e]; [|eauto].
  unfold recursion_limit. rewrite pregel_unfold.
  destruct (run_nodes _ st0 _) as [u1|e]; [|eauto].
  destruct (apply_writes st0 [] _) as [st1|e]; [|eauto].
  rewrite successors_analyze. unfold retrieval_step. rewrite pregel_unfold.
  destruct (retriever_node_fresh embed_text ATTRACTIONS st1) as [e He].
  assert (Hr : run_nodes
                 (planning_graph_of embed_text format_score json_dumps
                    attraction_retriever_node food_retriever_node
                    tips_retriever_node itinerary_retriever_node)
                 st1 ["retrieve_attractions"; "retrieve_food"; "retrieve_tips";
                      "retrieve_itineraries"] = Raise e).
  { change (run_nodes _ st1 _) with
      (do u <- retriever_node embed_text attraction_retriever_node st1;
       do us <- run_nodes
                  (planning_graph_of embed_text format_score json_dumps
                     attraction_retriever_node food_retriever_node
                     tips_retriever_node itinerary_retriever_node)
                  st1 ["retrieve_food"; "retrieve_tips"; "retrieve_itineraries"];
       Ok (u :: us)).
    unfold attraction_retriever_node. rewrite He. reflexivity. }
  rewrite Hr. eauto.
Qed.

End Runs.

(** ** The end-to-end scenario and the replanning edge *)

Section Scenario.

Variable embed_text : string -> Faiss.Vec.
Variable format_score : Q -> string.
Variable json_dumps : Metadata -> string.

(** What the intent-analysis node produces for the preferences of the
    scenario: three days, all four categories, and an attractions filter
    with [max_price = 10.0] and the two interests as required tags. *)
Lemma scenario_intent (state : PlannerState) :
  state !! "user_preferences" = Some (VPrefs scenario_prefs) ->
  exists intent strategy fa errors warnings,
    IntentAnalyzerNode state
    = Ok [ ("parsed_intent", VIntent intent);
           ("retrieval_strategy", VStrategy strategy);
           ("errors", errors); ("warnings", warnings) ]
    /\ pi_duration_days intent = 3
    /\ rs_sources strategy = [ATTRACTIONS; FOOD; TIPS; ITINERARIES]
    /\ source_lookup (rs_filters strategy) ATTRACTIONS = Some fa
    /\ f_max_price fa = Some 10%Q
    /\ f_required_tags fa = Some ["art"; "food"].
Proof.
  intros Hp. unfold IntentAnalyzerNode, get_prefs. rewrite Hp. simpl.
  eexists. eexists. eexists. eexists. eexists.
  split; [reflexivity|]. repeat split.
Qed.

(** The aggregated context always opens with the heading, so it is never
    empty. *)
Lemma build_context_string_heading (attractions food tips itineraries : list Document)
    (prefs : UserPreferences) :
  contains "## Trip Planning Context"
    (_build_context_string format_score json_dumps attractions food tips
       itineraries prefs) = true
  /\ _build_context_string format_score json_dumps attractions food tips
       itineraries prefs <> "".
Proof. split; [reflexivity | discriminate]. Qed.

(** C5.  Run by the graph as it is built, the scenario does not reach the
    aggregation node: the retrieval nodes own retrievers that were never
    loaded, their indexes hold nothing, and the search raises.  No
    [aggregated_context] is produced. *)
Theorem scenario_workflow_raises :
  (exists trace e,
      invoke (planner_graph embed_text format_score json_dumps)
             (initial_state scenario_prefs) = (trace, Raise e))
  /\ invoke (planner_graph zero_embedding format_score json_dumps)
            (initial_state scenario_prefs)
     = ([["analyze_intent"]; retrieval_step], Raise IndexError).
Proof.
  split; [apply planner_graph_never_returns|]. vm_compute. reflexivity.
Qed.

(** With one document in each store the run of the scenario returns after
    the three steps and the aggregated context opens with the heading.  The
    one stored attraction is listed ten times.  The state has no
    "itinerary_context" and the context no itinerary section, although the
    itinerary node retrieves its document. *)
Example scenario_with_stocked_retrievers :
  fst stocked_run = full_trace
  /\ returns (snd stocked_run)
  /\ contains "## Trip Planning Context"
              (text_at (final_state stocked_run) "aggregated_context") = true
  /\ texts_at (final_state stocked_run) "attractions_context"
     = Some (repeat "Louvre" 10)
  /\ (exists results,
        retriever_node zero_embedding (stocked_node ITINERARIES)
                       (final_state stocked_run)
        = Ok [("itineraries_context", VDocs results)]
        /\ map doc_text results = repeat "Three days in Paris" 10)
  /\ final_state stocked_run !! "itinerary_context" = None
  /\ contains "## Similar Past Itineraries"
              (text_at (final_state stocked_run) "aggregated_context") = false.
Proof.
  split; [vm_compute; reflexivity|].
  split; [eexists; vm_compute; reflexivity|].
  split; [vm_compute; reflexivity|].
  split; [vm_compute; reflexivity|].
  split; [eexists; split; [vm_compute; reflexivity | vm_compute; reflexivity]|].
  split; vm_compute; reflexivity.
Qed.

(** [should_replan] answers "generate" exactly when replanning is asked for
    and fewer than three iterations have run. *)
Lemma should_replan_generate (state : PlannerState) :
  should_replan state = Ok "generate"
  <-> truthy (default (VBool false) (state !! "needs_replanning")) = true
      /\ exists n, default (VInt 0) (state !! "iteration_count") = VInt n /\ n < 3.
Proof.
  unfold should_replan.
  destruct (truthy (default (VBool false) (state !! "needs_replanning"))).
  - destruct (default (VInt 0) (state !! "iteration_count")) as [| | | | | | |n];
      try (split; [discriminate | intros [_ [n [Hn _]]]; discriminate Hn]).
    destruct (Z.ltb_spec n 3); split.
    + intros _. split; [reflexivity|]. exists n. split; [reflexivity | assumption].
    + reflexivity.
    + discriminate.
    + intros [_ [m [Hm Hlt]]]. inversion Hm. lia.
  - split; [discriminate | intros [Hf _]; discriminate Hf].
Qed.

(** The claim as stated fails: in a state that asks for replanning with no
    iteration run, [should_replan] answers "generate", but the run of the
    graph from the aggregation node on ends after that node. *)
Lemma no_generation_after_aggregation :
  should_replan replanning_state = Ok "generate"
  /\ exists state',
       pregel recursion_limit (planner_graph zero_embedding blank_score blank_json)
              replanning_state ["aggregate_context"] []
       = ([["aggregate_context"]], Ok state').
Proof. split; [reflexivity|]. eexists. vm_compute. reflexivity. Qed.

(** C8, amended.  [should_replan] answers "generate" exactly when
    [needs_replanning] is true and [iteration_count < 3]; the graph does
    not use it: no edge leaves the aggregation node but the one to the end,
    and whatever the retrieval nodes and the input, a run goes through the
    analysis, retrieval and aggregation steps at most once each and stops,
    so it runs no replanning cycle. *)
Theorem replanning_edge_unused (na nf nt ni : ParallelRetrieverNode)
    (state : PlannerState) (input : Update) :
  (should_replan state = Ok "generate"
   <-> truthy (default (VBool false) (state !! "needs_replanning")) = true
       /\ exists n, default (VInt 0) (state !! "iteration_count") = VInt n /\ n < 3)
  /\ successors (planning_graph_of embed_text format_score json_dumps na nf nt ni)
                ["aggregate_context"] = []
  /\ exists (n : nat) (res : Result PlannerState),
       invoke (planning_graph_of embed_text format_score json_dumps na nf nt ni) input
       = (firstn n full_trace, res)
       /\ (returns res -> n = 3%nat).
Proof.
  split; [apply should_replan_generate|].
  split; [apply successors_aggregate | apply invoke_trace].
Qed.

End Scenario.

(** * Further properties of the code *)

(** ** [FAISSVectorStore]: adding and searching *)

Lemma faiss_add_ok (ix ix' : Faiss.IndexFlatL2) (vs : list Faiss.Vec) :
  Faiss.add ix vs = Ok ix' ->
  Faiss.xb ix' = (Faiss.xb ix ++ vs)%list /\ Faiss.d ix' = Faiss.d ix
  /\ vs <> [] /\ Forall (fun v => Z.of_nat (length v) = Faiss.d ix) vs.
Proof.
  unfold Faiss.add. destruct vs as [|v vs]; [discriminate|].
  destruct (forallb (fun w => Z.of_nat (length w) =? Z.of_nat (length v)) (v :: vs))
    eqn:Hall; cbn [negb]; [|discriminate].
  destruct (Z.eqb_spec (Z.of_nat (length v)) (Faiss.d ix)) as [Hd|]; cbn [negb];
    [|discriminate].
  intros H. inversion H; subst; simpl. repeat split; [discriminate|].
  rewrite forallb_forall in Hall. apply List.Forall_forall. intros w Hw.
  specialize (Hall w Hw). apply Z.eqb_eq in Hall. lia.
Qed.



(** X2.  The store is append-only: whatever [add_documents] calls follow,
    succeeding or not, the texts, metadata and vectors already stored stay
    where they are, in order, and the dimensions do not change. *)
Theorem run_calls_append_only (cs : list AddCall) (s : FAISSVectorStore) :
  exists ts ms vs,
    texts (run_calls s cs) = (texts s ++ ts)%list
    /\ metadatas (run_calls s cs) = (metadatas s ++ ms)%list
    /\ Faiss.xb (index (run_calls s cs)) = (Faiss.xb (index s) ++ vs)%list
    /\ Faiss.d (index (run_calls s cs)) = Faiss.d (index s)
    /\ dimension (run_calls s cs) = dimension s.
Proof.
  revert s. induction cs as [|c cs IH]; intros s.
  - exists [], [], []. simpl. rewrite !app_nil_r. auto.
  - change (run_calls s (c :: cs)) with (run_calls (apply_call s c) cs).
    destruct (IH (apply_call s c)) as (ts & ms & vs & Ht & Hm & Hv & Hd & Hdim).
    unfold apply_call in *.
    destruct (add_documents s (call_texts c) (call_embeddings c) (call_metadatas c))
      as [s1|] eqn:E.
    + unfold add_documents in E.
      destruct (Faiss.add (index s) (call_embeddings c)) as [ix|] eqn:Ha;
        simpl in E; [|discriminate].
      destruct (faiss_add_ok _ _ _ Ha) as (Hxb & Hd1 & _).
      inversion E; subst s1; clear E. simpl in *.
      eexists. eexists. eexists.
      rewrite Ht, Hm, Hv, Hxb, Hd, Hd1, Hdim, <- !app_assoc. repeat split.
    + exists ts, ms, vs. auto.
Qed.

(** ** Persistence: what [save] and [load] touch *)

Lemma mkdir_frame (fs : FS) (path p : string) :
  p <> path -> fst (mkdir fs path) !! p = fs !! p.
Proof.
  intros Hp. unfold mkdir. destruct (fs !! path) as [[]|]; simpl; try reflexivity.
  apply lookup_insert_ne. congruence.
Qed.

Lemma write_file_frame (fs : FS) (file p : string) (content : Entry) :
  p <> file -> fst (write_file fs file content) !! p = fs !! p.
Proof.
  intros Hp. unfold write_file.
  destruct (fs !! file) as [[]|]; simpl; try reflexivity;
    apply lookup_insert_ne; congruence.
Qed.

(** Of the entries of the file system, [save] creates or replaces the
    directory and its three files only, whether it succeeds or raises
    part-way (the parent directories [mkdir(parents=True)] may create are not
    among the entries). *)
Lemma save_frame (s : FAISSVectorStore) (path p : string) (fs : FS) :
  ~ In p (paths_of path) -> fst (save s path fs) !! p = fs !! p.
Proof.
  intros Hp. unfold paths_of in Hp. simpl in Hp.
  assert (H0 : p <> path) by (intros ->; apply Hp; auto).
  assert (H1 : p <> joinpath path "index.faiss") by (intros ->; apply Hp; auto).
  assert (H2 : p <> joinpath path "texts.json") by (intros ->; apply Hp; auto).
  assert (H3 : p <> joinpath path "metadata.json") by (intros ->; apply Hp; auto 6).
  unfold save.
  pose proof (mkdir_frame fs path p H0) as F0.
  destruct (mkdir fs path) as [fs1 [[]|e]]; simpl in F0; [|exact F0].
  pose proof (write_file_frame fs1 _ p (IndexBlob (index s)) H1) as F1.
  destruct (write_file fs1 _ (IndexBlob (index s))) as [fs2 [[]|e]]; simpl in F1;
    [|simpl; congruence].
  pose proof (write_file_frame fs2 _ p (JsonTexts (texts s)) H2) as F2.
  destruct (write_file fs2 _ (JsonTexts (texts s))) as [fs3 [[]|e]]; simpl in F2;
    [|simpl; congruence].
  rewrite (write_file_frame fs3 _ p (JsonMetadata (metadatas s)) H3). congruence.
Qed.






(** ** [BaseRetriever.load] *)

(** X4.  [BaseRetriever.load] returns [True] exactly when the location
    exists and its three files decode; the retriever then holds the persisted
    index, texts and metadata.  The dimension the store was constructed with
    is neither compared with the persisted index nor updated. *)
Theorem retriever_load_true_iff (r : BaseRetriever) (fs : FS) :
  (snd (retriever_load r fs) = true
   <-> exists ix ts ms, persisted_at fs (store_path r) ix ts ms)
  /\ (forall ix ts ms,
        persisted_at fs (store_path r) ix ts ms ->
        retriever_load r fs
        = (with_store r {| dimension := dimension (vector_store r); index := ix;
                           texts := ts; metadatas := ms |}, true)).
Proof.
  assert (Hfwd : forall ix ts ms,
             persisted_at fs (store_path r) ix ts ms ->
             retriever_load r fs
             = (with_store r {| dimension := dimension (vector_store r); index := ix;
                                texts := ts; metadatas := ms |}, true)).
  { intros ix ts ms (Hex & Hi & Ht & Hm).
    unfold retriever_load, path_exists, load, read_index, load_texts, load_metadata.
    destruct Hex as [e He]. rewrite He, Hi, Ht, Hm. reflexivity. }
  split; [|exact Hfwd]. split.
  - intros H. destruct (retriever_load r fs) as [r' b] eqn:E. simpl in H. subst b.
    destruct (retriever_load_true r r' fs E) as (ix & ts & ms & Hi & Ht & Hm & _).
    exists ix, ts, ms. unfold persisted_at. repeat split; auto.
    unfold retriever_load, path_exists in E.
    destruct (fs !! store_path r); [eauto | discriminate].
  - intros (ix & ts & ms & Hp). rewrite (Hfwd ix ts ms Hp). reflexivity.
Qed.

Lemma collect_no_metadata (s : FAISSVectorStore) (hits : list Faiss.Hit) :
  metadatas s = [] -> (1 <= length (texts s))%nat ->
  Forall (hit_ok (Z.of_nat (length (texts s)))) hits -> hits <> [] ->
  collect s hits = Raise IndexError.
Proof.
  intros Hm Hn Hok Hne. destruct Hok as [|[idx dist] hits [Hr _] _]; [congruence|].
  simpl in Hr. simpl.
  destruct (Z.ltb_spec idx (Z.of_nat (length (texts s)))); [|lia].
  rewrite (py_index_ok (texts s) idx "") by lia. simpl.
  rewrite Hm, py_index_empty. reflexivity.
Qed.

(** X5.  [load] is not atomic.  When the index file and the texts decode and
    the metadata file does not, [BaseRetriever.load] returns [False] with the
    index and the texts of the retriever already replaced and its metadata
    untouched.  On a retriever that had no documents, and with as many texts
    as vectors persisted (at least one), every later search with a query of
    the index dimension then raises [IndexError]. *)
Theorem retriever_load_partial (r : BaseRetriever) (fs : FS)
    (ix : Faiss.IndexFlatL2) (ts : list string) :
  is_Some (fs !! store_path r) ->
  fs !! joinpath (store_path r) "index.faiss" = Some (IndexBlob ix) ->
  fs !! joinpath (store_path r) "texts.json" = Some (JsonTexts ts) ->
  (forall ms, fs !! joinpath (store_path r) "metadata.json" <> Some (JsonMetadata ms)) ->
  retriever_load r fs
  = (with_store r {| dimension := dimension (vector_store r); index := ix;
                     texts := ts; metadatas := metadatas (vector_store r) |}, false)
  /\ (metadatas (vector_store r) = [] ->
      length ts = length (Faiss.xb ix) -> (1 <= length ts)%nat ->
      forall q k, Z.of_nat (length q) = Faiss.d ix -> 0 < k ->
        similarity_search (vector_store (fst (retriever_load r fs))) q k
        = Raise IndexError).
Proof.
  intros [e He] Hi Ht Hm.
  assert (Hl : retriever_load r fs
               = (with_store r {| dimension := dimension (vector_store r); index := ix;
                                  texts := ts;
                                  metadatas := metadatas (vector_store r) |}, false)).
  { unfold retriever_load, path_exists, load, read_index, load_texts, load_metadata.
    rewrite He, Hi, Ht. simpl.
    destruct (fs !! joinpath (store_path r) "metadata.json") as [[]|] eqn:Em;
      try reflexivity.
    exfalso. eapply Hm. reflexivity. }
  split; [exact Hl|]. intros Hnil Hlen Hn q k Hq Hk. rewrite Hl. simpl.
  unfold similarity_search, Faiss.search. simpl.
  rewrite Hq, Z.eqb_refl. simpl. destruct (Z.ltb_spec 0 k); [|lia]. simpl.
  apply collect_no_metadata; simpl; auto.
  - rewrite Hlen. apply knn_ok.
  - intros E. pose proof (knn_length ix q (Z.to_nat k)) as Hk'. rewrite E in Hk'.
    simpl in Hk'. lia.
Qed.

Lemma retriever_load_partial_witness :
  retriever_load AttractionRetriever half_written_fs
  = (with_store AttractionRetriever
       {| dimension := embedding_dimension; index := index one_doc_store;
          texts := ["Louvre"]; metadatas := [] |}, false)
  /\ similarity_search
       (vector_store (fst (retriever_load AttractionRetriever half_written_fs)))
       [0%Q; 0%Q] 1
     = Raise IndexError.
Proof.
  destruct (retriever_load_partial AttractionRetriever half_written_fs
              (index one_doc_store) ["Louvre"]) as [Hl Hs].
  - exists Dir. reflexivity.
  - reflexivity.
  - reflexivity.
  - intros ms. vm_compute. discriminate.
  - split; [exact Hl|]. apply Hs; reflexivity.
Defined.

Lemma retriever_load_ext (r : BaseRetriever) (fs1 fs2 : FS) :
  (forall p, In p (paths_of (store_path r)) -> fs1 !! p = fs2 !! p) ->
  retriever_load r fs1 = retriever_load r fs2.
Proof.
  intros H. unfold retriever_load, path_exists, load, read_index, load_texts,
              load_metadata.
  rewrite (H (store_path r)) by (simpl; auto).
  rewrite (H (joinpath (store_path r) "index.faiss")) by (simpl; auto).
  rewrite (H (joinpath (store_path r) "texts.json")) by (simpl; auto).
  rewrite (H (joinpath (store_path r) "metadata.json")) by (simpl; auto 6).
  reflexivity.
Qed.

Lemma category_paths_disjoint (a b : KnowledgeSource) (p : string) :
  a <> b ->
  In p (paths_of (joinpath vector_store_path (source_value b))) ->
  ~ In p (paths_of (joinpath vector_store_path (source_value a))).
Proof.
  intros Hab Hb Ha.
  destruct a, b; try congruence; vm_compute in Hb, Ha;
    repeat match goal with
    | H : _ \/ _ |- _ => destruct H
    | H : False |- _ => destruct H
    end; subst; discriminate.
Qed.

(** X6.  The categories persist independently: saving the retriever of one
    category, with any store and whether the save succeeds or not, changes
    nothing for the [load] of a retriever of another category. *)
Theorem save_other_category (a b : KnowledgeSource) (ca cb : RetrieverClass)
    (s : FAISSVectorStore) (fs : FS) :
  a <> b ->
  retriever_load (new_retriever cb b)
                 (fst (retriever_save (with_store (new_retriever ca a) s) fs))
  = retriever_load (new_retriever cb b) fs.
Proof.
  intros Hab. apply retriever_load_ext. intros p Hp.
  unfold retriever_save. apply save_frame. simpl store_path in *.
  apply (category_paths_disjoint a b p Hab Hp).
Qed.

Lemma save_other_category_witness :
  retriever_load (new_retriever FoodRetrieverC FOOD)
    (fst (retriever_save
            (with_store (new_retriever AttractionRetrieverC ATTRACTIONS) one_doc_store)
            half_written_fs))
  = retriever_load (new_retriever FoodRetrieverC FOOD) half_written_fs.
Proof.
  apply (save_other_category ATTRACTIONS FOOD AttractionRetrieverC FoodRetrieverC
           one_doc_store half_written_fs).
  discriminate.
Defined.

(** ** Retrieval and the category filters *)

Lemma apply_filters_keeps (c : RetrieverClass) (results : list Document) (f : Filters) :
  _apply_filters c results f
  = List.filter (fun r => keeps c f (doc_metadata r)) results.
Proof.
  destruct c; simpl; try reflexivity; symmetry; apply forallb_filter_id;
    apply forallb_forall; reflexivity.
Qed.

Lemma filter_sublist {A : Type} (p : A -> bool) (l : list A) :
  sublist (List.filter p l) l.
Proof.
  induction l as [|x l IH]; simpl; [constructor|].
  destruct (p x); [apply sublist_skip | apply sublist_cons]; exact IH.
Qed.

(** X7.  A retrieval that returns gives at most [k] documents; they are
    documents of the [2k]-search of the store, in the order the search gave
    them; and when a filter record with at least one key was passed, each of
    them passes the filter of the retriever's class. *)
Theorem retrieve_result (embed_text : string -> Faiss.Vec) (r : BaseRetriever)
    (query : string) (k : Z) (filters : option Filters) (docs : list Document) :
  retrieve embed_text r query k filters = Ok docs ->
  0 < k
  /\ Z.of_nat (length docs) <= k
  /\ exists results,
       similarity_search (vector_store r) (embed_text query) (k * 2) = Ok results
       /\ sublist docs results
       /\ forall f, filters = Some f -> filters_truthy f = true ->
                    Forall (fun d => keeps (cls r) f (doc_metadata d) = true) docs.
Proof.
  unfold retrieve.
  destruct (similarity_search (vector_store r) (embed_text query) (k * 2))
    as [results|] eqn:Hs; simpl; [|discriminate].
  intros H. inversion H; subst; clear H.
  assert (Hk : 0 < k).
  { unfold similarity_search, Faiss.search in Hs.
    destruct (Z.of_nat (length (embed_text query)) =? Faiss.d (index (vector_store r)));
      simpl in Hs; [|discriminate].
    destruct (Z.ltb_spec 0 (k * 2)); simpl in Hs; [lia | discriminate]. }
  split; [exact Hk|]. split.
  { pose proof (firstn_le_length (Z.to_nat k)
       match filters with
       | Some f => if filters_truthy f then _apply_filters (cls r) results f else results
       | None => results
       end). lia. }
  exists results. split; [reflexivity|]. split.
  - etransitivity; [apply sublist_take|].
    destruct filters as [f|]; [|reflexivity].
    destruct (filters_truthy f); [|reflexivity].
    rewrite apply_filters_keeps. apply filter_sublist.
  - intros f -> Ht. rewrite Ht, apply_filters_keeps.
    apply Forall_take. apply List.Forall_forall. intros d Hd.
    apply filter_In in Hd. apply Hd.
Qed.

Lemma retrieve_result_witness :
  exists docs,
    retrieve zero_embedding stocked_food_retriever "Paris budget vegetarian restaurants"
             max_retrieval_results (Some veg_or_halal_only) = Ok docs
    /\ length docs = 10%nat
    /\ 0 < max_retrieval_results
    /\ Z.of_nat (length docs) <= max_retrieval_results
    /\ exists results,
         similarity_search (vector_store stocked_food_retriever)
           (zero_embedding "Paris budget vegetarian restaurants")
           (max_retrieval_results * 2)
         = Ok results
         /\ sublist docs results
         /\ forall f, Some veg_or_halal_only = Some f -> filters_truthy f = true ->
              Forall (fun d => keeps (cls stocked_food_retriever) f (doc_metadata d) = true)
                     docs.
Proof.
  eexists. split; [vm_compute; reflexivity|]. split; [reflexivity|].
  apply (retrieve_result zero_embedding stocked_food_retriever
           "Paris budget vegetarian restaurants" max_retrieval_results
           (Some veg_or_halal_only)).
  vm_compute. reflexivity.
Defined.

(** X8.  The tips retriever (like the base class) has no filter of its own:
    whatever filter record is passed, it returns what it returns without
    one, the first [k] entries of the search.  And for every class a record
    with no key, or keys of other categories only, filters nothing out. *)
Theorem retrieve_unfiltered (embed_text : string -> Faiss.Vec) (r : BaseRetriever)
    (query : string) (k : Z) (filters : option Filters) :
  (cls r = TipsRetrieverC \/ cls r = BaseRetrieverC
   \/ (exists f, filters = Some f /\ forall md, keeps (cls r) f md = true)) ->
  retrieve embed_text r query k filters = retrieve embed_text r query k None.
Proof.
  intros H. unfold retrieve.
  destruct (similarity_search (vector_store r) (embed_text query) (k * 2))
    as [results|]; simpl; [|reflexivity].
  destruct filters as [f|]; [|reflexivity].
  destruct (filters_truthy f); [|reflexivity].
  rewrite apply_filters_keeps.
  destruct H as [-> | [-> | (f' & E & Hall)]].
  - simpl. rewrite forallb_filter_id; [reflexivity|].
    apply forallb_forall. reflexivity.
  - simpl. rewrite forallb_filter_id; [reflexivity|].
    apply forallb_forall. reflexivity.
  - inversion E; subst f'. rewrite forallb_filter_id; [reflexivity|].
    apply forallb_forall. intros d _. apply Hall.
Qed.

Lemma retrieve_unfiltered_witness :
  retrieve zero_embedding (tips stocked_multi) "Paris travel tips" 10
           (Some art_food_filters)
  = retrieve zero_embedding (tips stocked_multi) "Paris travel tips" 10 None.
Proof.
  apply retrieve_unfiltered. left. reflexivity.
Defined.

Lemma negb_Qle_bool (a b : Q) : negb (Qle_bool a b) = false <-> (a <= b)%Q.
Proof. rewrite negb_false_iff. apply Qle_bool_iff. Qed.

Lemma forall_str_in (req tags : list string) :
  forallb (fun t => str_in t tags) req = true <-> (forall t, In t req -> In t tags).
Proof.
  rewrite forallb_forall. split; intros H t Ht; specialize (H t Ht);
    apply str_in_In; exact H.
Qed.

Lemma not_exists_str_in (xs tags : list string) :
  existsb (fun t => str_in t tags) xs = false <-> (forall t, In t xs -> ~ In t tags).
Proof.
  rewrite <- not_true_iff_false, exists_str_in. split.
  - intros H t H1 H2. apply H. eauto.
  - intros H [t [H1 H2]]. exact (H t H1 H2).
Qed.

Lemma skip_max_price_false (f : Filters) (md : Metadata) :
  skip_max_price f md = false
  <-> forall bound, f_max_price f = Some bound -> (admission_fee_of md <= bound)%Q.
Proof.
  unfold skip_max_price, admission_fee_of. destruct (f_max_price f) as [bound|].
  - rewrite negb_Qle_bool. split; [intros H b E; injection E as <-; exact H | auto].
  - split; [discriminate | reflexivity].
Qed.

Lemma skip_categories_false (f : Filters) (md : Metadata) :
  skip_categories f md = false
  <-> forall cats, f_categories f = Some cats ->
        exists c, md_category md = Some c /\ In c cats.
Proof.
  unfold skip_categories. destruct (f_categories f) as [cats|].
  - destruct (md_category md) as [c|].
    + rewrite negb_false_iff, str_in_In. split.
      * intros H x E. injection E as <-. eauto.
      * intros H. destruct (H cats eq_refl) as (c' & E & Hc).
        injection E as <-. exact Hc.
    + split; [discriminate|]. intros H. destruct (H cats eq_refl) as (c & E & _).
      discriminate E.
  - split; [discriminate | reflexivity].
Qed.

Lemma skip_required_tags_false (f : Filters) (md : Metadata) :
  skip_required_tags f md = false
  <-> forall req, f_required_tags f = Some req ->
        forall t, In t req -> In t (tags_of md).
Proof.
  unfold skip_required_tags, tags_of. destruct (f_required_tags f) as [req|].
  - rewrite negb_false_iff, forall_str_in.
    split; [intros H x E; injection E as <-; exact H | intros H; exact (H req eq_refl)].
  - split; [discriminate | reflexivity].
Qed.

Lemma skip_excluded_tags_false (f : Filters) (md : Metadata) :
  skip_excluded_tags f md = false
  <-> forall excl, f_excluded_tags f = Some excl ->
        forall t, In t excl -> ~ In t (tags_of md).
Proof.
  unfold skip_excluded_tags, tags_of. destruct (f_excluded_tags f) as [excl|].
  - rewrite not_exists_str_in.
    split; [intros H x E; injection E as <-; exact H | intros H; exact (H excl eq_refl)].
  - split; [discriminate | reflexivity].
Qed.

Lemma attraction_keeps_iff (f : Filters) (md : Metadata) :
  attraction_keeps f md = true
  <-> (forall bound, f_max_price f = Some bound -> (admission_fee_of md <= bound)%Q)
      /\ (forall cats, f_categories f = Some cats ->
            exists c, md_category md = Some c /\ In c cats)
      /\ (forall req, f_required_tags f = Some req ->
            forall t, In t req -> In t (tags_of md))
      /\ (forall excl, f_excluded_tags f = Some excl ->
            forall t, In t excl -> ~ In t (tags_of md)).
Proof.
  rewrite <- skip_max_price_false, <- skip_categories_false,
          <- skip_required_tags_false, <- skip_excluded_tags_false.
  unfold attraction_keeps.
  destruct (skip_max_price f md), (skip_categories f md),
           (skip_required_tags f md), (skip_excluded_tags f md);
    intuition discriminate.
Qed.

(** X9.  [AttractionRetriever._apply_filters] keeps a candidate of the list
    exactly when it meets every key present: its admission fee (0 when the
    metadata have none) is at most [max_price]; its category is one of
    [categories] (a candidate without category is rejected); all
    [required_tags] are among its tags and none of the [excluded_tags] is (no
    tags when the metadata have none). *)
Theorem attraction_filter_exact (f : Filters) (results : list Document) (r : Document) :
  In r (_apply_filters AttractionRetrieverC results f)
  <-> In r results
      /\ (forall bound, f_max_price f = Some bound ->
            (admission_fee_of (doc_metadata r) <= bound)%Q)
      /\ (forall cats, f_categories f = Some cats ->
            exists c, md_category (doc_metadata r) = Some c /\ In c cats)
      /\ (forall req, f_required_tags f = Some req ->
            forall t, In t req -> In t (tags_of (doc_metadata r)))
      /\ (forall excl, f_excluded_tags f = Some excl ->
            forall t, In t excl -> ~ In t (tags_of (doc_metadata r))).
Proof.
  change (_apply_filters AttractionRetrieverC results f)
    with (List.filter (fun r => attraction_keeps f (doc_metadata r)) results).
  rewrite filter_In_iff, attraction_keeps_iff. reflexivity.
Qed.

Lemma skip_destination_false (f : Filters) (md : Metadata) :
  skip_destination f md = false
  <-> forall dest, f_destination f = Some dest -> md_destination md = Some dest.
Proof.
  unfold skip_destination. destruct (f_destination f) as [dest|].
  2:{ split; [discriminate | reflexivity]. }
  destruct (md_destination md) as [x|].
  - rewrite negb_false_iff, String.eqb_eq. split.
    + intros -> d E. injection E as <-. reflexivity.
    + intros H. specialize (H dest eq_refl). now injection H.
  - split; [discriminate|]. intros H. specialize (H dest eq_refl). discriminate H.
Qed.

Lemma skip_duration_false (f : Filters) (md : Metadata) :
  skip_duration f md = false
  <-> forall target, f_duration_days f = Some target ->
        target - 1 <= duration_days_of md <= target + 1.
Proof.
  unfold skip_duration, duration_days_of. destruct (f_duration_days f) as [target|].
  2:{ split; [discriminate | reflexivity]. }
  rewrite Z.ltb_ge. split.
  - intros H t E. injection E as <-. lia.
  - intros H. specialize (H target eq_refl). lia.
Qed.

Lemma itinerary_keeps_iff (f : Filters) (md : Metadata) :
  itinerary_keeps f md = true
  <-> (forall dest, f_destination f = Some dest -> md_destination md = Some dest)
      /\ (forall target, f_duration_days f = Some target ->
            target - 1 <= duration_days_of md <= target + 1).
Proof.
  rewrite <- skip_destination_false, <- skip_duration_false.
  unfold itinerary_keeps.
  destruct (skip_destination f md), (skip_duration f md); intuition discriminate.
Qed.

(** X10.  [ItineraryRetriever._apply_filters] keeps a past itinerary of the
    list exactly when its destination is the requested one (one without
    destination is rejected) and its duration is within one day of the
    target, an itinerary without [duration_days] counting as lasting 0
    days. *)
Theorem itinerary_filter_exact (f : Filters) (results : list Document) (r : Document) :
  In r (_apply_filters ItineraryRetrieverC results f)
  <-> In r results
      /\ (forall dest, f_destination f = Some dest ->
            md_destination (doc_metadata r) = Some dest)
      /\ (forall target, f_duration_days f = Some target ->
            target - 1 <= duration_days_of (doc_metadata r) <= target + 1).
Proof.
  change (_apply_filters ItineraryRetrieverC results f)
    with (List.filter (fun r => itinerary_keeps f (doc_metadata r)) results).
  rewrite filter_In_iff, itinerary_keeps_iff. reflexivity.
Qed.

(** ** [MultiSourceRetriever.retrieve_all] *)

Lemma source_eqb_eq (a b : KnowledgeSource) : source_eqb a b = true <-> a = b.
Proof. destruct a, b; simpl; split; intros H; try discriminate; reflexivity. Qed.

Lemma source_eq_dec (a b : KnowledgeSource) : {a = b} + {a <> b}.
Proof. decide equality. Qed.

Lemma source_lookup_update_eq {A : Type} (d : list (KnowledgeSource * A)) k v :
  source_lookup (source_update d k v) k = Some v.
Proof.
  induction d as [|[k' v'] d IH]; simpl.
  - assert (E : source_eqb k k = true) by now apply source_eqb_eq. now rewrite E.
  - destruct (source_eqb k' k) eqn:E; simpl; rewrite E; [reflexivity | exact IH].
Qed.

Lemma source_lookup_update_ne {A : Type} (d : list (KnowledgeSource * A)) k k' v :
  k' <> k -> source_lookup (source_update d k v) k' = source_lookup d k'.
Proof.
  intros Hne. induction d as [|[k0 v0] d IH]; simpl.
  - destruct (source_eqb k k') eqn:E; [|reflexivity].
    apply source_eqb_eq in E. congruence.
  - destruct (source_eqb k0 k) eqn:E; simpl.
    + apply source_eqb_eq in E. subst k0.
      destruct (source_eqb k k') eqn:E'; [|reflexivity].
      apply source_eqb_eq in E'. congruence.
    + destruct (source_eqb k0 k'); [reflexivity | exact IH].
Qed.

Lemma retrieve_all_from_spec (embed_text : string -> Faiss.Vec)
    (m : MultiSourceRetriever) (query : string) (k : Z)
    (filters : option (list (KnowledgeSource * Filters)))
    (sources : list KnowledgeSource) (acc d : list (KnowledgeSource * list Document)) :
  retrieve_all_from embed_text m query k filters sources acc = Ok d ->
  (forall src, In src sources ->
     exists r docs, _get_retriever m src = Ok r
       /\ retrieve embed_text r query k (filters_for filters src) = Ok docs
       /\ source_lookup d src = Some docs)
  /\ (forall src, ~ In src sources -> source_lookup d src = source_lookup acc src).
Proof.
  revert acc. induction sources as [|s rest IH]; intros acc H; simpl in H.
  - inversion H; subst. split; [intros src []| reflexivity].
  - destruct (_get_retriever m s) as [r|] eqn:Hr; simpl in H; [|discriminate].
    destruct (retrieve embed_text r query k (filters_for filters s)) as [docs|] eqn:Hd;
      simpl in H; [|discriminate].
    destruct (IH _ H) as [HA HB]. split.
    + intros src [<- | Hin]; [|apply HA, Hin].
      destruct (in_dec source_eq_dec s rest) as [Hin|Hnin]; [apply HA, Hin|].
      exists r, docs. repeat split; auto.
      rewrite (HB s Hnin). apply source_lookup_update_eq.
    + intros src Hnin. simpl in Hnin.
      rewrite HB by tauto. apply source_lookup_update_ne. intros ->. tauto.
Qed.

(** X11.  When [retrieve_all] returns, every requested source has a
    retriever (so the transport source, which has none, was not requested),
    the result maps each requested source to what its retriever retrieves
    with that source's filters, also when the source was requested more than
    once, and it has no entry for any other source. *)
Theorem retrieve_all_result (embed_text : string -> Faiss.Vec)
    (m : MultiSourceRetriever) (query : string) (sources : list KnowledgeSource)
    (k : Z) (filters : option (list (KnowledgeSource * Filters)))
    (d : list (KnowledgeSource * list Document)) :
  retrieve_all embed_text m query sources k filters = Ok d ->
  ~ In TRANSPORT sources
  /\ (forall src, In src sources ->
        exists r docs, _get_retriever m src = Ok r
          /\ retrieve embed_text r query k (filters_for filters src) = Ok docs
          /\ source_lookup d src = Some docs)
  /\ (forall src, ~ In src sources -> source_lookup d src = None).
Proof.
  intros H. apply retrieve_all_from_spec in H. destruct H as [HA HB].
  split; [|split; [exact HA | exact HB]].
  intros Hin. destruct (HA TRANSPORT Hin) as (r & _ & Hr & _). discriminate Hr.
Qed.

Lemma retrieve_all_result_witness :
  exists d,
    retrieve_all zero_embedding stocked_multi "Paris" [TIPS; FOOD; TIPS] 1 None = Ok d
    /\ ~ In TRANSPORT [TIPS; FOOD; TIPS]
    /\ (forall src, In src [TIPS; FOOD; TIPS] ->
          exists r docs, _get_retriever stocked_multi src = Ok r
            /\ retrieve zero_embedding r "Paris" 1 (filters_for None src) = Ok docs
            /\ source_lookup d src = Some docs)
    /\ (forall src, ~ In src [TIPS; FOOD; TIPS] -> source_lookup d src = None).
Proof.
  eexists. split; [vm_compute; reflexivity|].
  apply (retrieve_all_result zero_embedding stocked_multi "Paris" [TIPS; FOOD; TIPS] 1 None).
  vm_compute. reflexivity.
Defined.

(** ** Intent analysis *)

(** X12.  The duration of a trip counts the whole days between start and end
    and adds one: when the end lies [n] whole days and less than one more day
    after the start, the duration is [n + 1] (so a trip ending [days - 1]
    days after its start, as the command line builds it, lasts [days]
    days); and the duration is at least one exactly when the end is not
    before the start. *)
Theorem duration_of_days (prefs : UserPreferences) (n r : Z) :
  seconds_of (end_date prefs) = seconds_of (start_date prefs) + n * 86400 + r ->
  0 <= r < 86400 ->
  duration_of prefs = n + 1
  /\ (1 <= duration_of prefs
      <-> seconds_of (start_date prefs) <= seconds_of (end_date prefs)).
Proof.
  intros He Hr. unfold duration_of, delta_days.
  replace (seconds_of (end_date prefs) - seconds_of (start_date prefs))
    with (n * 86400 + r) by lia.
  rewrite Z.div_add_l by lia. rewrite (Z.div_small r 86400) by lia.
  split; [lia|]. split; intros H; nia.
Qed.

Lemma duration_of_days_witness :
  duration_of scenario_prefs = 2 + 1
  /\ (1 <= duration_of scenario_prefs
      <-> seconds_of (start_date scenario_prefs) <= seconds_of (end_date scenario_prefs)).
Proof.
  apply (duration_of_days scenario_prefs 2 0); [reflexivity | lia].
Defined.

Lemma optional_key_all (l : list string) (P : string -> Prop) :
  (forall req, (if nonempty l then Some l else None) = Some req ->
               forall t, In t req -> P t)
  <-> (forall t, In t l -> P t).
Proof.
  destruct l as [|x l]; simpl; split; intros H.
  - intros t [].
  - discriminate.
  - apply (H _ eq_refl).
  - intros req E. injection E as <-. exact H.
Qed.

(** X13.  What the workflow filters by.  With the records the intent
    analysis builds from the preferences, the attraction filter keeps a
    candidate exactly when its admission fee is at most 10 for a BUDGET
    traveller and at most 25 for a MODERATE one, all the interests are among
    its tags and nothing to avoid is; and the itinerary filter keeps a past
    itinerary exactly when its duration is within one day of the trip's,
    whatever its destination and the destinations asked for. *)
Theorem planned_filters (prefs : UserPreferences) (results : list Document)
    (r : Document) :
  exists fa fi,
    source_lookup (_build_filters prefs) ATTRACTIONS = Some fa
    /\ source_lookup (_build_filters prefs) ITINERARIES = Some fi
    /\ (In r (_apply_filters AttractionRetrieverC results fa)
        <-> In r results
            /\ (budget_level prefs = BUDGET ->
                  (admission_fee_of (doc_metadata r) <= 10)%Q)
            /\ (budget_level prefs = MODERATE ->
                  (admission_fee_of (doc_metadata r) <= 25)%Q)
            /\ (forall t, In t (interests prefs) -> In t (tags_of (doc_metadata r)))
            /\ (forall t, In t (avoid prefs) -> ~ In t (tags_of (doc_metadata r))))
    /\ (In r (_apply_filters ItineraryRetrieverC results fi)
        <-> In r results
            /\ duration_of prefs - 1 <= duration_days_of (doc_metadata r)
                <= duration_of prefs + 1).
Proof.
  eexists. eexists. split; [reflexivity|]. split; [reflexivity|]. split.
  - change (_apply_filters AttractionRetrieverC results ?f)
      with (List.filter (fun r => attraction_keeps f (doc_metadata r)) results).
    rewrite filter_In_iff, attraction_keeps_iff.
    cbn [f_max_price f_categories f_required_tags f_excluded_tags].
    rewrite !optional_key_all.
    assert (HA : (forall bound,
                    match budget_level prefs with
                    | BUDGET => Some 10%Q
                    | MODERATE => Some 25%Q
                    | LUXURY => None
                    end = Some bound ->
                    (admission_fee_of (doc_metadata r) <= bound)%Q)
                 <-> (budget_level prefs = BUDGET ->
                        (admission_fee_of (doc_metadata r) <= 10)%Q)
                     /\ (budget_level prefs = MODERATE ->
                           (admission_fee_of (doc_metadata r) <= 25)%Q)).
    { destruct (budget_level prefs); split;
        [ intros H; split; intros E; try discriminate E; apply H; reflexivity
        | intros [H1 H2] bound E; try discriminate E; injection E as <-; auto
        | intros H; split; intros E; try discriminate E; apply H; reflexivity
        | intros [H1 H2] bound E; try discriminate E; injection E as <-; auto
        | intros H; split; intros E; try discriminate E; apply H; reflexivity
        | intros [H1 H2] bound E; try discriminate E; injection E as <-; auto ]. }
    rewrite HA. split.
    + intros (Hin & [H1 H2] & _ & H3 & H4). auto.
    + intros (Hin & H1 & H2 & H3 & H4). repeat split; auto. discriminate.
  - change (_apply_filters ItineraryRetrieverC results ?f)
      with (List.filter (fun r => itinerary_keeps f (doc_metadata r)) results).
    rewrite filter_In_iff, itinerary_keeps_iff. cbn [f_destination f_duration_days].
    split; intros (Hin & H); (split; [exact Hin|]).
    + apply H. reflexivity.
    + split; [discriminate|]. intros t E. injection E as <-. exact H.
Qed.

(** ** The context aggregator *)

Lemma nonempty_firstn {A : Type} (n : nat) (l : list A) :
  nonempty (firstn (S n) l) = nonempty l.
Proof. destruct l; reflexivity. Qed.

Lemma py_prefix_idem (n : nat) (s : string) :
  py_prefix n (py_prefix n s) = py_prefix n s.
Proof.
  revert n. induction s as [|c s IH]; intros n; [reflexivity|].
  cbn [py_prefix]. destruct (is_continuation c) eqn:Ec.
  - cbn [py_prefix]. rewrite Ec, IH. reflexivity.
  - destruct n as [|n]; [reflexivity|].
    cbn [py_prefix]. rewrite Ec, IH. reflexivity.
Qed.

Lemma itinerary_lines_clip i (l : list Document) :
  map itinerary_lines (enumerate_from i (map clip l))
  = map itinerary_lines (enumerate_from i l).
Proof.
  revert i. induction l as [|d l IH]; intros i; simpl; [reflexivity|].
  rewrite IH, py_prefix_idem. reflexivity.
Qed.

(** X14.  The aggregated context depends only on the first 10 attractions,
    the first 10 food places, the first 5 tips and the first 3 itineraries,
    and of an itinerary only on the first 200 characters of its text:
    everything beyond is never shown. *)
Theorem build_context_string_truncates (format_score : Q -> string)
    (json_dumps : Metadata -> string)
    (attractions food tips itineraries : list Document) (prefs : UserPreferences) :
  _build_context_string format_score json_dumps attractions food tips itineraries prefs
  = _build_context_string format_score json_dumps
      (firstn 10 attractions) (firstn 10 food) (firstn 5 tips)
      (map clip (firstn 3 itineraries)) prefs.
Proof.
  unfold _build_context_string.
  rewrite !nonempty_firstn, !take_idemp.
  replace (nonempty (map clip (firstn 3 itineraries))) with (nonempty itineraries)
    by (destruct itineraries; reflexivity).
  rewrite (firstn_map clip 3 (firstn 3 itineraries)), take_idemp.
  rewrite itinerary_lines_clip. reflexivity.
Qed.

(** ** Merging the writes of a step *)

Lemma apply_writes_cons (state : PlannerState) (written : list string)
    (k : string) (v : Value) (rest : Update) :
  apply_writes state written ((k, v) :: rest)
  = if negb (str_in k declared_fields) then apply_writes state written rest
    else if str_in k written then Raise InvalidUpdateError
    else apply_writes (<[k := v]> state) (k :: written) rest.
Proof. reflexivity. Qed.

Lemma merge_all_cons (state : PlannerState) (k : string) (v : Value) (rest : Update) :
  merge_all state ((k, v) :: rest)
  = merge_all (if str_in k declared_fields then <[k := v]> state else state) rest.
Proof. reflexivity. Qed.

Lemma apply_writes_ok (ws : Update) (state : PlannerState) (written : list string) :
  List.NoDup (map fst ws) ->
  (forall k, In k (map fst ws) -> ~ In k written) ->
  apply_writes state written ws = Ok (merge_all state ws).
Proof.
  revert state written. induction ws as [|[k v] ws IH]; intros state written Hnd Hw;
    [reflexivity|].
  inversion Hnd as [|? ? Hk Hnd']; subst.
  rewrite apply_writes_cons, merge_all_cons.
  destruct (str_in k declared_fields) eqn:Hdecl; cbn [negb].
  - assert (Hnw : str_in k written = false).
    { apply str_in_false. apply Hw. simpl. auto. }
    rewrite Hnw. apply IH; [exact Hnd'|].
    intros k' Hk' [<- | Hin]; [contradiction|]. apply (Hw k'); simpl; auto.
  - apply IH; [exact Hnd'|]. intros k' Hk'. apply Hw. simpl. auto.
Qed.

Lemma merge_all_lookup_other (ws : Update) (state : PlannerState) (k : string) :
  ~ In k (map fst ws) -> merge_all state ws !! k = state !! k.
Proof.
  revert state. induction ws as [|[k' v] ws IH]; intros state Hk; [reflexivity|].
  simpl in Hk. rewrite merge_all_cons, IH by tauto.
  destruct (str_in k' declared_fields); [|reflexivity].
  apply lookup_insert_ne. tauto.
Qed.

Lemma merge_all_perm (ws ws' : Update) :
  Permutation ws ws' -> List.NoDup (map fst ws) ->
  forall state, merge_all state ws = merge_all state ws'.
Proof.
  induction 1 as [|x l l' Hp IH|x y l|l l' l'' Hp1 IH1 Hp2 IH2]; intros Hnd state.
  - reflexivity.
  - inversion Hnd; subst. destruct x as [k v]. rewrite !merge_all_cons.
    apply IH. assumption.
  - destruct x as [kx vx], y as [ky vy]. rewrite !merge_all_cons.
    inversion Hnd as [|? ? Hy Hnd']; subst. simpl in Hy.
    destruct (str_in kx declared_fields), (str_in ky declared_fields);
      try reflexivity.
    rewrite insert_insert_ne by tauto. reflexivity.
  - rewrite IH1 by exact Hnd. apply IH2.
    apply (Permutation_NoDup (Permutation_map fst Hp1) Hnd).
Qed.

(** ** Runs of the planning graph *)

(** X15.  A run whose input has no "user_preferences" (and no key twice)
    stops in the intent analysis with a [KeyError]; no retrieval node
    runs. *)
Theorem invoke_without_preferences (embed_text : string -> Faiss.Vec)
    (format_score : Q -> string) (json_dumps : Metadata -> string)
    (na nf nt ni : ParallelRetrieverNode) (input : Update) :
  List.NoDup (map fst input) -> ~ In "user_preferences" (map fst input) ->
  invoke (planning_graph_of embed_text format_score json_dumps na nf nt ni) input
  = ([["analyze_intent"]], Raise KeyError).
Proof.
  intros Hnd Hno. unfold invoke.
  change (entry_point (planning_graph_of _ _ _ _ _ _ _)) with (Some "analyze_intent").
  rewrite (apply_writes_ok input ∅ []) by (auto; intros k _ []).
  unfold recursion_limit. rewrite pregel_unfold.
  change (run_nodes _ (merge_all ∅ input) ["analyze_intent"])
    with (do u <- IntentAnalyzerNode (merge_all ∅ input); Ok [u]).
  unfold IntentAnalyzerNode, get_prefs.
  rewrite (merge_all_lookup_other input ∅ "user_preferences" Hno).
  rewrite lookup_empty. reflexivity.
Qed.

Lemma invoke_without_preferences_witness :
  invoke (planner_graph zero_embedding blank_score blank_json)
         [("errors", VStrs []); ("iteration_count", VInt 0)]
  = ([["analyze_intent"]], Raise KeyError).
Proof.
  unfold planner_graph, build_planning_graph.
  apply (invoke_without_preferences zero_embedding blank_score blank_json
           attraction_retriever_node food_retriever_node tips_retriever_node
           itinerary_retriever_node).
  - repeat constructor; simpl; intuition discriminate.
  - simpl. intuition discriminate.
Defined.
(** ** The retrieval step *)

Lemma context_key_inj (a b : KnowledgeSource) : context_key a = context_key b -> a = b.
Proof. destruct a, b; intros E; try reflexivity; discriminate E. Qed.

Lemma NoDup_map_injective {A B : Type} (f : A -> B) (l : list A) :
  (forall x y, f x = f y -> x = y) -> List.NoDup l -> List.NoDup (map f l).
Proof.
  intros Hf. induction 1 as [|x l Hx _ IH]; simpl; constructor; [|exact IH].
  intros Hin. apply in_map_iff in Hin. destruct Hin as (y & E & Hy).
  apply Hf in E. subst y. exact (Hx Hy).
Qed.

Lemma retriever_outputs (embed_text : string -> Faiss.Vec) (state : PlannerState)
    (ns : list ParallelRetrieverNode) (us : list Update) :
  Forall2 (fun n u => retriever_node embed_text n state = Ok u) ns us ->
  map fst (concat us) = map (fun n => context_key (source n)) ns
  /\ us = map (node_output embed_text state) ns.
Proof.
  induction 1 as [|n u ns us Hn _ [IH1 IH2]]; [split; reflexivity|].
  destruct (retriever_node_writes_one_key embed_text n state u Hn) as [docs ->].
  simpl. unfold node_output at 1. rewrite IH1, Hn, <- IH2. split; reflexivity.
Qed.

(** X16.  The retrieval nodes of one step do not interfere.  For retrieval
    nodes of different sources that all return, merging their updates never
    raises [InvalidUpdateError], and the state that results does not depend
    on the order in which the nodes ran. *)
Theorem retrieval_step_order (embed_text : string -> Faiss.Vec) (state : PlannerState)
    (ns ns' : list ParallelRetrieverNode) (us us' : list Update) :
  List.NoDup (map source ns) -> Permutation ns ns' ->
  Forall2 (fun n u => retriever_node embed_text n state = Ok u) ns us ->
  Forall2 (fun n u => retriever_node embed_text n state = Ok u) ns' us' ->
  exists state',
    apply_writes state [] (concat us) = Ok state'
    /\ apply_writes state [] (concat us') = Ok state'.
Proof.
  intros Hnd Hp H H'.
  destruct (retriever_outputs _ _ _ _ H) as [Hk Hus].
  destruct (retriever_outputs _ _ _ _ H') as [Hk' Hus'].
  assert (Hkeys : List.NoDup (map fst (concat us))).
  { rewrite Hk, <- (map_map source context_key).
    apply NoDup_map_injective; [exact context_key_inj | exact Hnd]. }
  assert (Hperm : Permutation (concat us) (concat us')).
  { rewrite Hus, Hus', <- !flat_map_concat_map.
    apply Permutation_flat_map, Hp. }
  exists (merge_all state (concat us)). split.
  - apply apply_writes_ok; [exact Hkeys | intros k _ []].
  - rewrite (merge_all_perm _ _ Hperm Hkeys state).
    apply apply_writes_ok; [|intros k _ []].
    apply (Permutation_NoDup (Permutation_map fst Hperm) Hkeys).
Qed.

Lemma retrieval_step_order_witness :
  exists us us' state',
    Forall2 (fun n u => retriever_node zero_embedding n analysed_state = Ok u)
            [stocked_node ATTRACTIONS; stocked_node FOOD] us
    /\ Forall2 (fun n u => retriever_node zero_embedding n analysed_state = Ok u)
               [stocked_node FOOD; stocked_node ATTRACTIONS] us'
    /\ apply_writes analysed_state [] (concat us) = Ok state'
    /\ apply_writes analysed_state [] (concat us') = Ok state'.
Proof.
  assert (Ha : retriever_node zero_embedding (stocked_node ATTRACTIONS) analysed_state
               = Ok (node_output zero_embedding analysed_state (stocked_node ATTRACTIONS)))
    by (vm_compute; reflexivity).
  assert (Hf : retriever_node zero_embedding (stocked_node FOOD) analysed_state
               = Ok (node_output zero_embedding analysed_state (stocked_node FOOD)))
    by (vm_compute; reflexivity).
  exists (map (node_output zero_embedding analysed_state)
              [stocked_node ATTRACTIONS; stocked_node FOOD]),
         (map (node_output zero_embedding analysed_state)
              [stocked_node FOOD; stocked_node ATTRACTIONS]).
  assert (H1 : Forall2 (fun n u => retriever_node zero_embedding n analysed_state = Ok u)
                 [stocked_node ATTRACTIONS; stocked_node FOOD]
                 (map (node_output zero_embedding analysed_state)
                      [stocked_node ATTRACTIONS; stocked_node FOOD]))
    by (repeat constructor; assumption).
  assert (H2 : Forall2 (fun n u => retriever_node zero_embedding n analysed_state = Ok u)
                 [stocked_node FOOD; stocked_node ATTRACTIONS]
                 (map (node_output zero_embedding analysed_state)
                      [stocked_node FOOD; stocked_node ATTRACTIONS]))
    by (repeat constructor; assumption).
  assert (Hnd : List.NoDup (map source [stocked_node ATTRACTIONS; stocked_node FOOD]))
    by (repeat constructor; simpl; intuition discriminate).
  destruct (retrieval_step_order zero_embedding analysed_state _ _ _ _
              Hnd (perm_swap _ _ []) H1 H2) as (state' & E1 & E2).
  exists state'. auto.
Defined.
